(** * Focus: a hosts-file editor with content-addressed backups

    A shallow embedding of [focus/focus.py] and the proofs of its
    specification.

    Text is modelled by [string], one [ascii] per character.  That is exact
    for ASCII files (hosts files are), on which the UTF-8 encoding used by
    [_backup] is the identity.  A path is kept split as (directory, entry
    name): this is what [os.path.join] builds and what [os.listdir] takes
    apart.  A directory goes by one name in the store, its plain absolute
    path ([plain_dir]); directories are implicit, being there with the
    files in them, and a statement that rests on [os.makedirs] going
    through says so ([usable_backup_dir]).  The [logger.info] calls, which
    touch neither the files nor the instance, are left out. *)

From Stdlib Require Import ZArith Lia Ascii.
From Stdlib Require String.
From stdpp Require Import gmap strings list fin_maps.

Local Open Scope Z_scope.

(** ** The Python string operations the program uses *)

Module PyStr.

(** [str.isspace] on one ASCII character: tab, LF, VT, FF, CR, the four
    separators 0x1c-0x1f and the space. *)
Definition isspace (c : ascii) : bool :=
  match c with
  | "009" | "010" | "011" | "012" | "013"
  | "028" | "029" | "030" | "031" | " " => true
  | _ => false
  end%char.

Definition is_digit (c : ascii) : bool :=
  match c with
  | "0" | "1" | "2" | "3" | "4" | "5" | "6" | "7" | "8" | "9" => true
  | _ => false
  end%char.

Definition digit_val (c : ascii) : Z :=
  match c with
  | "1" => 1 | "2" => 2 | "3" => 3 | "4" => 4 | "5" => 5
  | "6" => 6 | "7" => 7 | "8" => 8 | "9" => 9 | _ => 0
  end%char.

Fixpoint all_digits (s : string) : bool :=
  match s with
  | "" => true
  | String c s' => is_digit c && all_digits s'
  end.

(** [s.isdigit()]: at least one character, and all of them digits. *)
Definition isdigit (s : string) : bool :=
  match s with
  | "" => false
  | _ => all_digits s
  end.

(** [s[:-1]]: all but the last character; the empty string stays empty. *)
Fixpoint but_last (s : string) : string :=
  match s with
  | "" => ""
  | String c s' => match s' with "" => "" | _ => String c (but_last s') end
  end.

(** [s.startswith(p)] *)
Definition startswith (s p : string) : bool := String.prefix p s.

(** [s.endswith(p)] *)
Definition endswith (s p : string) : bool :=
  String.prefix (String.rev p) (String.rev s).

(** The number a string of decimal digits denotes (leading zeros allowed). *)
Fixpoint int_go (acc : Z) (s : string) : Z :=
  match s with
  | "" => acc
  | String c s' => int_go (10 * acc + digit_val c) s'
  end.
Definition decimal (s : string) : Z := int_go 0 s.

(** [int(s)] on a string of decimal digits.  CPython converts at most
    [sys.int_info.default_max_str_digits] = 4300 digits, leading zeros
    counted, and raises [ValueError] beyond: [None] stands for that. *)
Definition MAX_STR_DIGITS : nat := 4300.
Definition int (s : string) : option Z :=
  if Nat.ltb MAX_STR_DIGITS (String.length s) then None
  else Some (decimal s).

(** [s.lstrip()], [s.rstrip()], [s.strip()] *)
Fixpoint lstrip (s : string) : string :=
  match s with
  | "" => ""
  | String c s' => if isspace c then lstrip s' else s
  end.

Fixpoint rstrip (s : string) : string :=
  match s with
  | "" => ""
  | String c s' =>
      match rstrip s' with
      | "" => if isspace c then "" else String c ""
      | r => String c r
      end
  end.

Definition strip (s : string) : string := lstrip (rstrip s).

(** [sep.join(ls)] *)
Definition join (sep : string) (ls : list string) : string :=
  String.concat sep ls.

(** Text-mode reading translates the line endings CR LF and CR to LF
    (universal newlines). *)
Fixpoint translate_newlines (s : string) : string :=
  match s with
  | "" => ""
  | String c s' =>
      if Ascii.eqb c "013" then
        match s' with
        | String "010" _ => translate_newlines s'
        | _ => String "010" (translate_newlines s')
        end
      else String c (translate_newlines s')
  end.

(** Cut a text after each LF, the LF staying with its line: a character
    other than LF joins the first line of what follows it. *)
Fixpoint split_keepends (s : string) : list string :=
  match s with
  | "" => []
  | String c s' =>
      if Ascii.eqb c "010" then String c "" :: split_keepends s'
      else match split_keepends s' with
           | [] => [String c ""]
           | l :: ls => String c l :: ls
           end
  end.

(** [f.readlines()] on a file opened in text mode, given its content. *)
Definition readlines (content : string) : list string :=
  split_keepends (translate_newlines content).

End PyStr.

(** ** SHA-256 ([hashlib.sha256], FIPS 180-4)

    Words are 32-bit, kept in [Z] with the wrap-around written out. *)

Module SHA256.

Definition add32 (x y : Z) : Z := (x + y) mod 2 ^ 32.
Definition not32 (x : Z) : Z := Z.lxor x 0xffffffff.
Definition shr (n x : Z) : Z := Z.shiftr x n.
Definition rotr (n x : Z) : Z :=
  Z.lor (Z.shiftr x n) (Z.land (Z.shiftl x (32 - n)) 0xffffffff).

Definition Ch (x y z : Z) : Z := Z.lxor (Z.land x y) (Z.land (not32 x) z).
Definition Maj (x y z : Z) : Z :=
  Z.lxor (Z.lxor (Z.land x y) (Z.land x z)) (Z.land y z).
Definition Sigma0 (x : Z) : Z :=
  Z.lxor (Z.lxor (rotr 2 x) (rotr 13 x)) (rotr 22 x).
Definition Sigma1 (x : Z) : Z :=
  Z.lxor (Z.lxor (rotr 6 x) (rotr 11 x)) (rotr 25 x).
Definition sigma0 (x : Z) : Z :=
  Z.lxor (Z.lxor (rotr 7 x) (rotr 18 x)) (shr 3 x).
Definition sigma1 (x : Z) : Z :=
  Z.lxor (Z.lxor (rotr 17 x) (rotr 19 x)) (shr 10 x).

(** The constants are not tabulated but computed as the standard defines
    them, from the first primes. *)
Definition is_prime (n : Z) : bool :=
  forallb (λ d, negb (n mod d =? 0)) (Z.of_nat <$> seq 2 (Z.to_nat n - 2)).

Definition primes (count : nat) : list Z :=
  take count (List.filter is_prime (Z.of_nat <$> seq 2 310)).

(** The integer cube root of a number below 2 ^ 108, bit by bit. *)
Definition icbrt (n : Z) : Z :=
  fold_left (λ r i, let r' := r + 2 ^ Z.of_nat i in
                    if r' * r' * r' <=? n then r' else r)
            (rev (seq 0 36)) 0.

(** The first 32 bits of the fractional parts of the cube roots of the
    first 64 primes. *)
Definition K : list Z :=
  (λ p, icbrt (p * 2 ^ 96) mod 2 ^ 32) <$> primes 64.

(** The first 32 bits of the fractional parts of the square roots of the
    first 8 primes. *)
Definition H0 : list Z :=
  (λ p, Z.sqrt (p * 2 ^ 64) mod 2 ^ 32) <$> primes 8.

(** The [n] low bytes of [x], most significant first. *)
Fixpoint be_bytes (n : nat) (x : Z) : list Z :=
  match n with
  | O => []
  | S n' => Z.land (Z.shiftr x (8 * Z.of_nat n')) 0xff :: be_bytes n' x
  end.

(** Padding: a 1 bit, zeros up to 56 modulo 64 bytes, the bit length on
    eight bytes. *)
Definition pad (msg : list Z) : list Z :=
  let l := Z.of_nat (length msg) in
  msg ++ [0x80] ++ replicate (Z.to_nat ((55 - l) mod 64)) 0
      ++ be_bytes 8 (8 * l).

Fixpoint chunks (fuel : nat) (bs : list Z) : list (list Z) :=
  match fuel, bs with
  | S fuel', _ :: _ => take 64 bs :: chunks fuel' (drop 64 bs)
  | _, _ => []
  end.

Fixpoint words (bs : list Z) : list Z :=
  match bs with
  | b0 :: b1 :: b2 :: b3 :: bs' =>
      Z.lor (Z.lor (Z.shiftl b0 24) (Z.shiftl b1 16))
            (Z.lor (Z.shiftl b2 8) b3) :: words bs'
  | _ => []
  end.

(** The message schedule, latest word first. *)
Fixpoint extend (n : nat) (rw : list Z) : list Z :=
  match n with
  | O => rw
  | S n' =>
      let w := add32 (add32 (add32 (sigma1 (nth 1 rw 0)) (nth 6 rw 0))
                            (sigma0 (nth 14 rw 0))) (nth 15 rw 0) in
      extend n' (w :: rw)
  end.
Definition schedule (block : list Z) : list Z :=
  rev (extend 48 (rev (words block))).

Record vars := Vars { va : Z; vb : Z; vc : Z; vd : Z;
                      ve : Z; vf : Z; vg : Z; vh : Z }.

Definition round (v : vars) (kw : Z * Z) : vars :=
  let T1 := add32 (add32 (add32 (add32 (vh v) (Sigma1 (ve v)))
                                (Ch (ve v) (vf v) (vg v))) kw.1) kw.2 in
  let T2 := add32 (Sigma0 (va v)) (Maj (va v) (vb v) (vc v)) in
  Vars (add32 T1 T2) (va v) (vb v) (vc v)
       (add32 (vd v) T1) (ve v) (vf v) (vg v).

Definition compress (H : list Z) (block : list Z) : list Z :=
  let v0 := Vars (nth 0 H 0) (nth 1 H 0) (nth 2 H 0) (nth 3 H 0)
                 (nth 4 H 0) (nth 5 H 0) (nth 6 H 0) (nth 7 H 0) in
  let v := fold_left round (zip K (schedule block)) v0 in
  zip_with add32 H [va v; vb v; vc v; vd v; ve v; vf v; vg v; vh v].

Definition digest_words (msg : list Z) : list Z :=
  let p := pad msg in
  fold_left compress (chunks (length p) p) H0.

Definition hex_digit (d : Z) : ascii :=
  nth (Z.to_nat d)
      ["0"; "1"; "2"; "3"; "4"; "5"; "6"; "7";
       "8"; "9"; "a"; "b"; "c"; "d"; "e"; "f"]%char "0"%char.

Fixpoint hex_go (n : nat) (x : Z) (rest : string) : string :=
  match n with
  | O => rest
  | S n' =>
      String (hex_digit (Z.land (Z.shiftr x (4 * Z.of_nat n')) 0xf))
             (hex_go n' x rest)
  end.

Fixpoint bytes_of (s : string) : list Z :=
  match s with
  | "" => []
  | String c s' => Z.of_N (N_of_ascii c) :: bytes_of s'
  end.

(** [hashlib.sha256(bytes(s, encoding="utf-8")).hexdigest()] *)
Definition hexdigest (s : string) : string :=
  foldr (hex_go 8) "" (digest_words (bytes_of s)).

End SHA256.

Arguments SHA256.hexdigest : simpl never.

(** ** Errors and results *)

Inductive exn : Type :=
  | FileNotFoundError (dir name : string)
  | RuntimeError_NotFoundContents
  | RuntimeError_BackupNotSpecified (tgt_file : list string)
  | ArgumentTypeError (time_str : string)
  | ValueError.

Inductive result (A : Type) : Type :=
  | Ok (a : A)
  | Raise (e : exn).
Arguments Ok {A} a.
Arguments Raise {A} e.

(** ** [parse_time] *)

Definition SEC_IN_A_DAY : Z := 86400.
Definition SEC_IN_A_HOUR : Z := 3600.
Definition SEC_IN_A_MIN : Z := 60.

(** [sec += f(int(digits))]: the [ValueError] of [int] goes through. *)
Definition add_int (sec : Z) (digits : string) (f : Z → Z) : result Z :=
  match PyStr.int digits with
  | Some n => Ok (sec + f n)
  | None => Raise ValueError
  end.

Definition parse_time (time_str : string) : result Z :=
  if negb (PyStr.isdigit (PyStr.but_last time_str)) then
    Raise (ArgumentTypeError time_str)
  else
    let sec := 0 in
    if PyStr.endswith time_str "d" then
      add_int sec (PyStr.but_last time_str) (λ n, n * SEC_IN_A_DAY)
    else if PyStr.endswith time_str "h" then
      add_int sec (PyStr.but_last time_str) (λ n, n * SEC_IN_A_HOUR)
    else if PyStr.endswith time_str "m" then
      add_int sec (PyStr.but_last time_str) (λ n, n * SEC_IN_A_MIN)
    else if PyStr.endswith time_str "s" then
      add_int sec (PyStr.but_last time_str) (λ n, n)
    else
      Raise (ArgumentTypeError time_str).

(** ** The file store and the state-and-exception monad

    A file is a path bound to its content.  A computation takes the store
    and returns a value or the exception raised, together with the store as
    it is at that point: an exception does not undo earlier writes. *)

Definition path : Type := string * string.

Definition M (A : Type) : Type :=
  gmap path string → result A * gmap path string.

Definition ret {A} (a : A) : M A := λ σ, (Ok a, σ).
Definition raise {A} (e : exn) : M A := λ σ, (Raise e, σ).
Definition bind {A B} (m : M A) (k : A → M B) : M B :=
  λ σ, match m σ with
       | (Ok a, σ') => k a σ'
       | (Raise e, σ') => (Raise e, σ')
       end.

Notation "'do' x <- m ; k" := (bind m (λ x, k))
  (at level 10, x name, m at level 100, k at level 200).
Notation "'do_' m ; k" := (bind m (λ _, k))
  (at level 10, m at level 100, k at level 200).

Definition os_path_join (d name : string) : path := (d, name).

Definition os_path_exists (p : path) : M bool :=
  λ σ, (Ok (bool_decide (is_Some (σ !! p))), σ).

(** The entry names of directory [d], in the store's order. *)
Definition listdir (σ : gmap path string) (d : string) : list string :=
  omap (λ e : path * string, if decide (e.1.1 = d) then Some e.1.2 else None)
       (map_to_list σ).

Definition os_listdir (d : string) : M (list string) :=
  λ σ, (Ok (listdir σ d), σ).

(** [os.makedirs(d, exist_ok=True)] where it goes through.  The store
    holds files only, a directory being there with the files in it, so that
    the call changes nothing; [usable_backup_dir] below states when it goes
    through. *)
Definition os_makedirs (d : string) : M unit := ret ().

(** [open(p, "r")] followed by [f.readlines()] *)
Definition open_readlines (p : path) : M (list string) :=
  λ σ, match σ !! p with
       | Some content => (Ok (PyStr.readlines content), σ)
       | None => (Raise (FileNotFoundError p.1 p.2), σ)
       end.

(** [open(p, "w")] followed by [f.write(content)] *)
Definition open_write (p : path) (content : string) : M unit :=
  λ σ, (Ok (), <[p := content]> σ).

(** ** The class [Focus] *)

Definition LF : string := String "010" "".

Definition TARGET_FILE_PATH : path := os_path_join "/etc" "hosts".
Definition FOCUS_BOS : string := "# Added by Focus".
Definition FOCUS_EOS : string := "# End of Focus section".
Definition DEFAULT_DST_IP : string := "127.0.0.1".

Record Focus : Type := mkFocus {
  backup_dir : string;
  quiet : bool;
  hosts_contents : list string;
  _current_hash : string;
  _current_backup_path : path
}.

Definition _read (p : path) : M (list string) :=
  do b <- os_path_exists p;
  if negb b then raise (FileNotFoundError p.1 p.2)
  else
    do lines <- open_readlines p;
    ret (fold_left (λ contents line, contents ++ [PyStr.strip line]) lines []).

Definition _write (p : path) (contents : list string) : M unit :=
  open_write p (PyStr.join LF contents).

Definition _backup (self : Focus) : M Focus :=
  do_ os_makedirs (backup_dir self);
  let byte_contents := PyStr.join "" (hosts_contents self) in
  let h := SHA256.hexdigest byte_contents in
  let self := mkFocus (backup_dir self) (quiet self) (hosts_contents self)
                      h (os_path_join (backup_dir self) h) in
  do b <- os_path_exists (_current_backup_path self);
  if negb b then
    do_ _write (_current_backup_path self) (hosts_contents self);
    ret self
  else ret self.

Definition __init__ (backup_dir : string) (quiet : bool) : M Focus :=
  do contents <- _read TARGET_FILE_PATH;
  _backup (mkFocus backup_dir quiet contents "" (os_path_join "" "")).

(** One turn of the loop of [forbid_domains] over the loaded lines. *)
Definition forbid_step (st : list string * bool) (line : string)
  : list string * bool :=
  let '(updated_contents, is_focus_section) := st in
  if PyStr.startswith line FOCUS_BOS then (updated_contents, true)
  else if is_focus_section && PyStr.startswith line FOCUS_EOS
  then (updated_contents, false)
  else if negb is_focus_section then (updated_contents ++ [line], is_focus_section)
  else (updated_contents, is_focus_section).

Definition forbid_domains (self : Focus) (domains : list string) : M unit :=
  match hosts_contents self with
  | [] => raise RuntimeError_NotFoundContents
  | _ =>
      let updated_contents :=
        (fold_left forbid_step (hosts_contents self) ([], false)).1 in
      let updated_contents := updated_contents ++ [FOCUS_BOS] in
      let updated_contents :=
        fold_left (λ u d, u ++ [DEFAULT_DST_IP +:+ " " +:+ d])
                  domains updated_contents in
      let updated_contents := updated_contents ++ [FOCUS_EOS] in
      _write TARGET_FILE_PATH updated_contents
  end.

Definition restore (self : Focus) (hash : option string) : M unit :=
  let hash := default (_current_hash self) hash in
  do names <- os_listdir (backup_dir self);
  let tgt_file := List.filter (λ backup, PyStr.startswith backup hash) names in
  if negb (length tgt_file =? 1)%nat
  then raise (RuntimeError_BackupNotSpecified tgt_file)
  else
    do backup_contents <-
      _read (os_path_join (backup_dir self) (nth 0 tgt_file ""));
    _write TARGET_FILE_PATH backup_contents.

(** [__exit__]: leaving the [with] block restores the recorded backup. *)
Definition __exit__ (self : Focus) : M unit := restore self None.

(** ** Definitions used to state the specification *)

Fixpoint string_forall (P : ascii → bool) (s : string) : bool :=
  match s with
  | "" => true
  | String c s' => P c && string_forall P s'
  end.

Definition not_lf (c : ascii) : bool := negb (Ascii.eqb c "010").
Definition not_cr (c : ascii) : bool := negb (Ascii.eqb c "013").
Definition not_newline (c : ascii) : bool := not_lf c && not_cr c.

(** The lines of a text: each one runs up to and including the next LF, and
    what follows the last LF, when there is something, is the last line. *)
Inductive Lines : string → list string → Prop :=
  | Lines_nil : Lines "" []
  | Lines_last body :
      body ≠ "" → string_forall not_lf body = true → Lines body [body]
  | Lines_cons body rest ls :
      string_forall not_lf body = true → Lines rest ls →
      Lines (body +:+ LF +:+ rest) ((body +:+ LF) :: ls).

(** A line as [_read] yields it: nothing to strip, no line ending inside. *)
Definition clean_line (l : string) : Prop :=
  PyStr.strip l = l ∧ string_forall not_newline l = true.

(** [l] neither starts nor ends with a white space character. *)
Definition ends_clear (l : string) : Prop :=
  (∀ c s, l = String c s → PyStr.isspace c = false)
  ∧ (∀ s c, l = s +:+ String c "" → PyStr.isspace c = false).

(** [l] is [raw] without its leading and trailing white space: what is cut
    off at either end is white space, and [l] neither starts nor ends with
    a white space character. *)
Definition stripped_of (raw l : string) : Prop :=
  ∃ pre post,
    raw = pre +:+ l +:+ post
    ∧ string_forall PyStr.isspace pre = true
    ∧ string_forall PyStr.isspace post = true
    ∧ ends_clear l.

(** The number of seconds in the unit a suffix names. *)
Definition unit_seconds (c : ascii) : option Z :=
  match c with
  | "d" => Some 86400
  | "h" => Some 3600
  | "m" => Some 60
  | "s" => Some 1
  | _ => None
  end%char.

(** The line that maps one domain to the loopback address. *)
Definition mapping_line (d : string) : string := DEFAULT_DST_IP +:+ " " +:+ d.

(** The managed section for a list of domains. *)
Definition managed_section (domains : list string) : list string :=
  FOCUS_BOS :: (mapping_line <$> domains) ++ [FOCUS_EOS].

(** The lines left when the managed sections are taken out, [in_section]
    telling whether the scan starts inside one. *)
Fixpoint unmanaged_from (in_section : bool) (lines : list string)
  : list string :=
  match lines with
  | [] => []
  | line :: rest =>
      if PyStr.startswith line FOCUS_BOS then unmanaged_from true rest
      else if in_section then
        unmanaged_from (negb (PyStr.startswith line FOCUS_EOS)) rest
      else line :: unmanaged_from false rest
  end.
Definition unmanaged (lines : list string) : list string :=
  unmanaged_from false lines.

(** A marker line is a line that starts with one of the two markers.  A
    line lies in a section when the last marker line before it starts with
    the begin marker. *)
Definition starts_section (l : string) : bool := PyStr.startswith l FOCUS_BOS.
Definition ends_section (l : string) : bool := PyStr.startswith l FOCUS_EOS.

Definition in_section (before : list string) : bool :=
  match List.find (λ l, starts_section l || ends_section l) (rev before) with
  | Some l => starts_section l
  | None => false
  end.

(** A line stays when it does not start with the begin marker and does not
    lie in a section. *)
Definition kept_at (before : list string) (line : string) : bool :=
  negb (starts_section line) && negb (in_section before).

(** The elements of [rest] that [keep] lets through, each one judged with
    the elements before it. *)
Fixpoint select_in_context {A} (keep : list A → A → bool)
    (before rest : list A) : list A :=
  match rest with
  | [] => []
  | x :: rest' =>
      (if keep before x then [x] else [])
      ++ select_in_context keep (before ++ [x]) rest'
  end.

Definition outside_sections (lines : list string) : list string :=
  select_in_context kept_at [] lines.

(** [d.split("/")] *)
Fixpoint split_slash (d : string) : list string :=
  match d with
  | "" => [""]
  | String c d' =>
      if Ascii.eqb c "/" then "" :: split_slash d'
      else match split_slash d' with
           | [] => [String c ""]
           | x :: xs => String c x :: xs
           end
  end.

(** A directory name in its one plain spelling: absolute, without a final
    slash, without empty, [.] or [..] components, made of printable
    characters, and within the lengths a file system takes: 255 for a
    component, and 4095 for the path of an entry, whose name has up to 255
    characters after a slash.  Two plain names that differ name two
    directories. *)
Definition plain_char (c : ascii) : bool :=
  (32 <=? nat_of_ascii c)%nat && (nat_of_ascii c <=? 126)%nat.

Definition plain_component (c : string) : bool :=
  negb (String.eqb c "") && negb (String.eqb c ".")
  && negb (String.eqb c "..")
  && string_forall plain_char c && (String.length c <=? 255)%nat.

Definition plain_dir (d : string) : bool :=
  match split_slash d with
  | "" :: c :: cs =>
      match c, cs with
      | "", [] => true
      | _, _ =>
          forallb plain_component (c :: cs) && (String.length d <=? 3839)%nat
      end
  | _ => false
  end.

(** The file a path of the store names, as one string; whether it is the
    directory [d] or lies above it; and whether it lies in a subdirectory
    of [d]. *)
Definition path_str (p : path) : string :=
  if String.eqb p.1 "/" then "/" +:+ p.2 else p.1 +:+ "/" +:+ p.2.

Definition in_the_way (d : string) (p : path) : bool :=
  String.eqb (path_str p) d || String.prefix (path_str p +:+ "/") d.

Definition below (d : string) (p : path) : bool :=
  String.prefix (if String.eqb d "/" then "/" else d +:+ "/") p.1
  && negb (String.eqb p.1 d).

(** A directory of files that [os.makedirs(d, exist_ok=True)] accepts: [d]
    is a plain directory name, no file of the store is [d] or lies above
    it, and none lies in a subdirectory of it, so that the entries of [d]
    are the files the store holds under [d]. *)
Definition usable_backup_dir (σ : gmap path string) (d : string) : bool :=
  plain_dir d
  && forallb (λ e : path * string,
                negb (in_the_way d e.1) && negb (below d e.1))
             (map_to_list σ).

(** The instance as [_backup] leaves it. *)
Definition snapshot_of (self : Focus) : Focus :=
  let h := SHA256.hexdigest (PyStr.join "" (hosts_contents self)) in
  mkFocus (backup_dir self) (quiet self) (hosts_contents self)
          h (os_path_join (backup_dir self) h).

(** The instance with other loaded lines. *)
Definition with_contents (self : Focus) (lines : list string) : Focus :=
  mkFocus (backup_dir self) (quiet self) lines
          (_current_hash self) (_current_backup_path self).

Definition is_raise {A} (r : result A) : bool :=
  match r with Raise _ => true | Ok _ => false end.

(** ** The rest of the class *)

(** [__enter__]: the [with] block works on the instance itself. *)
Definition __enter__ (self : Focus) : M Focus := ret self.

(** The two read-only properties. *)
Definition current_backup_path (self : Focus) : path :=
  _current_backup_path self.
Definition current_backup_hash (self : Focus) : string := _current_hash self.

(** A call on an instance, and what a sequence of calls leaves: the
    instance and the store, an exception ending the call it occurs in. *)
Inductive call : Type :=
  | Call_backup
  | Call_forbid_domains (domains : list string)
  | Call_restore (hash : option string).

Definition run_call (st : Focus * gmap path string) (c : call)
  : Focus * gmap path string :=
  let '(self, σ) := st in
  match c with
  | Call_backup =>
      match _backup self σ with
      | (Ok self', σ') => (self', σ')
      | (Raise _, σ') => (self, σ')
      end
  | Call_forbid_domains domains => (self, (forbid_domains self domains σ).2)
  | Call_restore hash => (self, (restore self hash σ).2)
  end.

Definition run_calls (calls : list call) (st : Focus * gmap path string)
  : Focus * gmap path string :=
  fold_left run_call calls st.

Definition is_lower_hex (c : ascii) : bool :=
  match c with
  | "0" | "1" | "2" | "3" | "4" | "5" | "6" | "7" | "8" | "9"
  | "a" | "b" | "c" | "d" | "e" | "f" => true
  | _ => false
  end%char.

(** ** The command line ([main])

    The options as given on the command line, the backup directory with its
    default filled in; [cl_time] holds the tokens that follow [-t]. *)
Record CommandLine : Type := mkCommandLine {
  cl_domains : list string;
  cl_backup_dir : string;
  cl_time : option (list string);
  cl_never_ending : bool;
  cl_restore : option string;
  cl_quiet : bool
}.

(** The namespace [parser.parse_args()] returns. *)
Record Namespace : Type := mkNamespace {
  args_domains : list string;
  args_backup_dir : string;
  args_time : option (list Z);
  args_never_ending : bool;
  args_restore : option string;
  args_quiet : bool
}.

(** [type=parse_time] applied to each token after [-t], in order. *)
Fixpoint parse_times (tokens : list string) : result (list Z) :=
  match tokens with
  | [] => Ok []
  | token :: tokens' =>
      match parse_time token with
      | Raise e => Raise e
      | Ok sec =>
          match parse_times tokens' with
          | Raise e => Raise e
          | Ok secs => Ok (sec :: secs)
          end
      end
  end.

(** [parse_args]: [None] stands for the usage error on which argparse exits
    with status 2, raised when [-t] has no token ([nargs="+"]), when a token
    is refused by [parse_time], or when [-t] and [-n], which are mutually
    exclusive, are both given. *)
Definition parse_args (cl : CommandLine) : option Namespace :=
  let namespace time :=
    mkNamespace (cl_domains cl) (cl_backup_dir cl) time
                (cl_never_ending cl) (cl_restore cl) (cl_quiet cl) in
  match cl_time cl with
  | None => Some (namespace None)
  | Some [] => None
  | Some tokens =>
      if cl_never_ending cl then None
      else match parse_times tokens with
           | Ok secs => Some (namespace (Some secs))
           | Raise _ => None
           end
  end.

(** How [main] ends.  [Sleep_by_clock] stands for a sleep so long that the
    reading of the monotonic clock decides whether [time.sleep] goes through
    or raises [OSError]. *)
Inductive outcome : Type :=
  | Returned
  | Uncaught (e : exn)
  | Uncaught_TypeError
  | Uncaught_ValueError
  | Uncaught_OverflowError
  | Sleep_by_clock
  | SystemExit_usage.

(** [sum(args.time)] *)
Definition sum_ints (secs : list Z) : Z := foldr Z.add 0 secs.

(** The longest sleep, in whole seconds, whose nanoseconds fit the signed
    64-bit count [time.sleep] converts its argument to; and the longest one
    that fits half of that count, leaving the other half to the reading of
    the monotonic clock, to which [time.sleep] adds its argument to get its
    deadline. *)
Definition SLEEP_MAX : Z := 9223372036.
Definition SLEEP_SAFE : Z := 4611686018.

(** The least whole number that true division by one turns into no float:
    it rounds to [2 ^ 1024]. *)
Definition FLOAT_OVERFLOW : Z := 2 ^ 1024 - 2 ^ 970.

(** Holding the block: the countdown or the single sleep.  Neither touches
    the store.  [sum] of [None] raises [TypeError]; [time.sleep] raises
    [ValueError] on a negative length and [OverflowError] on one beyond
    [SLEEP_MAX], and up to [SLEEP_SAFE] its deadline fits the count as
    well.  The countdown sleeps a hundredth of a second at a time, and not
    at all over an empty range; its first turn prints
    [sum(args.time) * 100 / 100], a division that raises [OverflowError]
    when the quotient is beyond the floats. *)
Definition hold (quiet : bool) (time : option (list Z)) : outcome :=
  match time with
  | None => Uncaught_TypeError
  | Some secs =>
      if quiet then
        if sum_ints secs <? 0 then Uncaught_ValueError
        else if SLEEP_MAX <? sum_ints secs then Uncaught_OverflowError
        else if SLEEP_SAFE <? sum_ints secs then Sleep_by_clock
        else Returned
      else
        if FLOAT_OVERFLOW <=? sum_ints secs then Uncaught_OverflowError
        else Returned
  end.

Definition outcome_of (r : result unit) : outcome :=
  match r with
  | Ok _ => Returned
  | Raise e => Uncaught e
  end.

(** [with Focus(...) as focus: body]: once the instance is constructed,
    [__exit__] runs however the body ends; an exception of the body goes on
    after it, unless [__exit__] raises one itself. *)
Definition with_Focus (ctor : M Focus)
    (body : Focus → gmap path string → outcome * gmap path string)
  : gmap path string → outcome * gmap path string :=
  λ σ, match ctor σ with
       | (Raise e, σ1) => (Uncaught e, σ1)
       | (Ok self, σ1) =>
           match __enter__ self σ1 with
           | (Raise e, σ1') => (Uncaught e, σ1')
           | (Ok focus, σ1') =>
               let '(out, σ2) := body focus σ1' in
               match __exit__ self σ2 with
               | (Raise e, σ3) => (Uncaught e, σ3)
               | (Ok _, σ3) => (out, σ3)
               end
           end
       end.

(** The body of [main] after [parse_args]. *)
Definition main_body (args : Namespace)
  : gmap path string → outcome * gmap path string :=
  match args_restore args with
  | Some hash =>
      λ σ, let '(r, σ') :=
             (do focus <- __init__ (args_backup_dir args) (args_quiet args);
              restore focus (Some hash)) σ in
           (outcome_of r, σ')
  | None =>
      if args_never_ending args then
        λ σ, let '(r, σ') :=
               (do focus <- __init__ (args_backup_dir args) (args_quiet args);
                forbid_domains focus (args_domains args)) σ in
             (outcome_of r, σ')
      else
        with_Focus (__init__ (args_backup_dir args) (args_quiet args))
          (λ focus σ,
             match forbid_domains focus (args_domains args) σ with
             | (Raise e, σ') => (Uncaught e, σ')
             | (Ok _, σ') => (hold (args_quiet args) (args_time args), σ')
             end)
  end.

Definition main (cl : CommandLine)
  : gmap path string → outcome * gmap path string :=
  λ σ, match parse_args cl with
       | None => (SystemExit_usage, σ)
       | Some args => main_body args σ
       end.

(** * Properties *)

(** ** SHA-256 on the FIPS 180-4 test messages *)

Example sha256_constants :
  hd 0 SHA256.K = 0x428a2f98 ∧ last SHA256.K = Some 0xc67178f2
  ∧ hd 0 SHA256.H0 = 0x6a09e667 ∧ last SHA256.H0 = Some 0x5be0cd19
  ∧ length SHA256.K = 64%nat ∧ length SHA256.H0 = 8%nat.
Proof. vm_compute. repeat split. Qed.

Example sha256_empty : SHA256.hexdigest "" =
  "e3b0c44298fc1c149afbf4c8996fb92427ae41e4649b934ca495991b7852b855".
Proof. vm_compute. reflexivity. Qed.

Example sha256_abc : SHA256.hexdigest "abc" =
  "ba7816bf8f01cfea414140de5dae2223b00361a396177a9cb410ff61f20015ad".
Proof. vm_compute. reflexivity. Qed.

(** The two digests of the test suite, as [hashlib] gives them. *)
Example sha256_test_suite :
  SHA256.hexdigest "testcontents"
  = "7097a82a108e78da1f0a6b994cefbb3f97d14cf581734619c38d2eb8ef4f2e60"
  ∧ SHA256.hexdigest "testcontentsbackuped"
    = "4215a54e9e21b400fb307ae7d237c606ad822da4c459b521697a470fb9a508b6".
Proof. split; vm_compute; reflexivity. Qed.

Example sha256_two_blocks :
  SHA256.hexdigest "abcdbcdecdefdefgefghfghighijhijkijkljklmklmnlmnomnopnopq" =
  "248d6a61d20638b8e5c026930c3e6039a33ce45964ff2167f6ecedd419db06c1".
Proof. vm_compute. reflexivity. Qed.

(** ** Strings *)

Section Strings.
Implicit Types (s t : string) (c : ascii).

Lemma app_cons c s t : String c s +:+ t = String c (s +:+ t).
Proof. reflexivity. Qed.

(** Every string is empty or ends with a last character. *)
Lemma string_snoc_cases s : s = "" ∨ ∃ n c, s = n +:+ String c "".
Proof.
  induction s as [|a s [->|(n & c & ->)]]; [by left|right..].
  - by exists "", a.
  - by exists (String a n), c.
Qed.

Lemma but_last_snoc n c : PyStr.but_last (n +:+ String c "") = n.
Proof.
  induction n as [|a n IH]; [done|].
  rewrite app_cons. simpl. rewrite IH.
  by destruct n.
Qed.

Lemma rev_app_app s t acc :
  String.rev_app (s +:+ t) acc = String.rev_app t (String.rev_app s acc).
Proof.
  revert acc. induction s as [|a s IH]; intros acc; [done|].
  rewrite app_cons. simpl. apply IH.
Qed.

Lemma rev_snoc n c : String.rev (n +:+ String c "") = String c (String.rev n).
Proof. unfold String.rev. by rewrite rev_app_app. Qed.

Lemma endswith_snoc n c c' :
  PyStr.endswith (n +:+ String c "") (String c' "") = bool_decide (c' = c).
Proof.
  unfold PyStr.endswith. rewrite rev_snoc. simpl.
  destruct (ascii_dec c' c) as [->|Hne].
  - rewrite bool_decide_eq_true_2 by done. by destruct (String.rev n).
  - by rewrite bool_decide_eq_false_2.
Qed.

Lemma int_go_snoc acc n c :
  PyStr.int_go acc (n +:+ String c "")
  = 10 * PyStr.int_go acc n + PyStr.digit_val c.
Proof.
  revert acc. induction n as [|a n IH]; intros acc; [done|].
  rewrite app_cons. simpl. apply IH.
Qed.

(** [decimal] reads a decimal numeral: appending a digit multiplies by ten
    and adds the digit. *)
Lemma decimal_snoc n c :
  PyStr.decimal (n +:+ String c "")
  = 10 * PyStr.decimal n + PyStr.digit_val c.
Proof. apply int_go_snoc. Qed.

Lemma startswith_refl s : PyStr.startswith s s = true.
Proof.
  unfold PyStr.startswith. induction s as [|a s IH]; [done|].
  simpl. by destruct (ascii_dec a a).
Qed.

End Strings.

(** ** [parse_time] *)

Lemma parse_time_snoc n c :
  PyStr.isdigit n = true →
  parse_time (n +:+ String c "")
  = match unit_seconds c with
    | Some k =>
        match PyStr.int n with
        | Some v => Ok (v * k)
        | None => Raise ValueError
        end
    | None => Raise (ArgumentTypeError (n +:+ String c ""))
    end.
Proof.
  intros Hn. unfold parse_time.
  rewrite but_last_snoc, Hn, !endswith_snoc. simpl negb. cbv iota zeta.
  unfold add_int.
  destruct c as [[] [] [] [] [] [] [] []]; try reflexivity;
    cbn [bool_decide decide_rel unit_seconds];
    destruct (PyStr.int n) as [v|]; try reflexivity;
    f_equal; unfold SEC_IN_A_DAY, SEC_IN_A_HOUR, SEC_IN_A_MIN; lia.
Qed.

Lemma parse_time_not_digits n c :
  PyStr.isdigit n = false →
  parse_time (n +:+ String c "")
  = Raise (ArgumentTypeError (n +:+ String c "")).
Proof. intros Hn. unfold parse_time. by rewrite but_last_snoc, Hn. Qed.

Lemma int_short n :
  (String.length n ≤ PyStr.MAX_STR_DIGITS)%nat →
  PyStr.int n = Some (PyStr.decimal n).
Proof.
  intros Hlen. unfold PyStr.int.
  by rewrite (proj2 (Nat.ltb_ge _ _) Hlen).
Qed.

Lemma int_long n :
  (PyStr.MAX_STR_DIGITS < String.length n)%nat → PyStr.int n = None.
Proof.
  intros Hlen. unfold PyStr.int.
  by rewrite (proj2 (Nat.ltb_lt _ _) Hlen).
Qed.

(** C6, amended: a digit string [n] of at most 4300 digits followed by one
    suffix among d, h, m, s is mapped to [n], read as a decimal numeral,
    times the seconds of that unit; with more than 4300 digits before such a
    suffix, the [ValueError] of [int] is raised; every other input raises
    the parse error; the six cases of the test suite come out as listed. *)
Theorem parse_time_spec :
  (PyStr.decimal "" = 0
   ∧ ∀ n c, PyStr.decimal (n +:+ String c "")
            = 10 * PyStr.decimal n + PyStr.digit_val c)
  ∧ (∀ n c k,
       PyStr.isdigit n = true → (String.length n ≤ 4300)%nat →
       unit_seconds c = Some k →
       parse_time (n +:+ String c "") = Ok (PyStr.decimal n * k))
  ∧ (∀ n c k,
       PyStr.isdigit n = true → (4300 < String.length n)%nat →
       unit_seconds c = Some k →
       parse_time (n +:+ String c "") = Raise ValueError)
  ∧ (∀ time_str,
       (¬ ∃ n c k, time_str = n +:+ String c ""
                   ∧ PyStr.isdigit n = true ∧ unit_seconds c = Some k) →
       parse_time time_str = Raise (ArgumentTypeError time_str))
  ∧ parse_time "2d" = Ok 172800 ∧ parse_time "3h" = Ok 10800
  ∧ parse_time "4m" = Ok 240 ∧ parse_time "5s" = Ok 5
  ∧ parse_time "6dm" = Raise (ArgumentTypeError "6dm")
  ∧ parse_time "7.8s" = Raise (ArgumentTypeError "7.8s").
Proof.
  split; [split; [done|apply decimal_snoc]|].
  split; [|split; [|split; [|by repeat split]]].
  - intros n c k Hn Hlen Hk. by rewrite parse_time_snoc, Hk, int_short.
  - intros n c k Hn Hlen Hk. by rewrite parse_time_snoc, Hk, int_long.
  - intros time_str Hnot.
    destruct (string_snoc_cases time_str) as [->|(n & c & ->)]; [done|].
    destruct (PyStr.isdigit n) eqn:Hn; [|by apply parse_time_not_digits].
    rewrite parse_time_snoc by done.
    destruct (unit_seconds c) as [k|] eqn:Hk; [|done].
    destruct Hnot. by exists n, c, k.
Qed.

Lemma parse_time_spec_witness :
  parse_time "15m" = Ok 900
  ∧ parse_time (String.string_of_list_ascii (replicate 4400 "0"%char)
                +:+ "h") = Raise ValueError
  ∧ parse_time "15x" = Raise (ArgumentTypeError "15x").
Proof.
  split; [|split].
  - apply (proj1 (proj2 parse_time_spec) "15" "m"%char 60);
      [reflexivity|cbn; lia|reflexivity].
  - apply (proj1 (proj2 (proj2 parse_time_spec)) _ "h"%char 3600);
      [vm_compute; reflexivity| |reflexivity].
    apply Nat.ltb_lt. vm_compute. reflexivity.
  - apply (proj1 (proj2 (proj2 (proj2 parse_time_spec))) "15x").
    intros (n & c & k & Heq & Hn & Hk).
    destruct (string_snoc_cases n) as [->|(n' & c' & ->)]; [done|].
    change "15x" with ("15" +:+ String "x" "") in Heq.
    assert (Hrev := f_equal String.rev Heq).
    rewrite !rev_snoc in Hrev. injection Hrev as <- _. discriminate Hk.
Defined.

(** A string of 4301 digits followed by a unit is a digit string followed by
    one suffix, and [parse_time] raises on it. *)
Lemma parse_time_spec_counterexample :
  let n := String.string_of_list_ascii (replicate 4301 "1"%char) in
  PyStr.isdigit n = true
  ∧ unit_seconds "s" = Some 1
  ∧ parse_time (n +:+ "s") = Raise ValueError.
Proof. repeat split; vm_compute; reflexivity. Qed.

(** ** Stripping and line splitting *)

Section Lines.
Implicit Types (s t body rest l : string) (c : ascii) (P : ascii → bool).

Lemma string_forall_app P s t :
  string_forall P (s +:+ t) = string_forall P s && string_forall P t.
Proof.
  induction s as [|c s IH]; [done|].
  rewrite app_cons. simpl. by rewrite IH, andb_assoc.
Qed.

Lemma string_forall_not_newline s :
  string_forall not_newline s
  = string_forall not_lf s && string_forall not_cr s.
Proof.
  induction s as [|c s IH]; [done|]. simpl. rewrite IH. unfold not_newline.
  destruct (not_lf c), (not_cr c), (string_forall not_lf s); done.
Qed.

Lemma lstrip_forall P s :
  string_forall P s = true → string_forall P (PyStr.lstrip s) = true.
Proof.
  induction s as [|c s IH]; [done|]. simpl.
  intros [Hc Hs]%andb_true_iff. destruct (PyStr.isspace c); [auto|].
  simpl. by rewrite Hc, Hs.
Qed.

Lemma rstrip_forall P s :
  string_forall P s = true → string_forall P (PyStr.rstrip s) = true.
Proof.
  induction s as [|c s IH]; [done|]. simpl.
  intros [Hc Hs]%andb_true_iff. specialize (IH Hs).
  destruct (PyStr.rstrip s) as [|a r].
  - destruct (PyStr.isspace c); [done|]. simpl. by rewrite Hc.
  - change (P c && string_forall P (String a r) = true). by rewrite Hc, IH.
Qed.

Lemma strip_forall P s :
  string_forall P s = true → string_forall P (PyStr.strip s) = true.
Proof. intros. by apply lstrip_forall, rstrip_forall. Qed.

Lemma lstrip_idem s : PyStr.lstrip (PyStr.lstrip s) = PyStr.lstrip s.
Proof.
  induction s as [|c s IH]; [done|]. simpl.
  destruct (PyStr.isspace c) eqn:Hc; [done|]. simpl. by rewrite Hc.
Qed.

Lemma rstrip_idem s : PyStr.rstrip (PyStr.rstrip s) = PyStr.rstrip s.
Proof.
  induction s as [|c s IH]; [done|]. simpl.
  destruct (PyStr.rstrip s) as [|a r] eqn:Hr.
  - destruct (PyStr.isspace c) eqn:Hc; [done|]. simpl. by rewrite Hc.
  - change (PyStr.rstrip (String c (String a r)) = String c (String a r)).
    change (match PyStr.rstrip (String a r) with
            | "" => if PyStr.isspace c then "" else String c ""
            | String a' r' => String c (String a' r')
            end = String c (String a r)).
    by rewrite IH.
Qed.

(** Stripping on the left keeps a string that has nothing to strip on the
    right that way. *)
Lemma rstrip_lstrip s :
  PyStr.rstrip s = s → PyStr.rstrip (PyStr.lstrip s) = PyStr.lstrip s.
Proof.
  induction s as [|c s IH]; [done|]. intros Hs. simpl.
  destruct (PyStr.isspace c) eqn:Hc; [|done].
  apply IH. simpl in Hs. rewrite Hc in Hs.
  destruct (PyStr.rstrip s) as [|a r]; [done|]. by injection Hs.
Qed.

Lemma strip_idem s : PyStr.strip (PyStr.strip s) = PyStr.strip s.
Proof.
  unfold PyStr.strip.
  rewrite (rstrip_lstrip (PyStr.rstrip s)) by apply rstrip_idem.
  apply lstrip_idem.
Qed.

Lemma rstrip_snoc_space s c :
  PyStr.isspace c = true → PyStr.rstrip (s +:+ String c "") = PyStr.rstrip s.
Proof.
  intros Hc. induction s as [|a s IH].
  - simpl. by rewrite Hc.
  - rewrite app_cons. simpl. by rewrite IH.
Qed.

Lemma strip_snoc_LF s : PyStr.strip (s +:+ LF) = PyStr.strip s.
Proof. unfold PyStr.strip, LF. by rewrite rstrip_snoc_space. Qed.

Lemma translate_newlines_no_cr s :
  string_forall not_cr (PyStr.translate_newlines s) = true.
Proof.
  induction s as [|c s IH]; [done|]. simpl.
  destruct (Ascii.eqb c "013") eqn:Hc.
  - destruct s as [|a s']; [done|].
    destruct (Ascii.eqb_spec a "010") as [->|Ha]; [done|].
    destruct a as [[] [] [] [] [] [] [] []]; try done.
  - simpl. unfold not_cr at 1. by rewrite Hc.
Qed.

Lemma translate_newlines_id s :
  string_forall not_cr s = true → PyStr.translate_newlines s = s.
Proof.
  induction s as [|c s IH]; [done|]. simpl.
  intros [Hc Hs]%andb_true_iff. unfold not_cr in Hc.
  destruct (Ascii.eqb c "013"); [done|]. by rewrite IH.
Qed.

Lemma split_keepends_Lines t : Lines t (PyStr.split_keepends t).
Proof.
  induction t as [|c t IH]; [constructor|]. simpl.
  destruct (Ascii.eqb_spec c "010") as [->|Hc].
  - by apply (Lines_cons "" t).
  - assert (Hnl : not_lf c = true).
    { unfold not_lf. by destruct (Ascii.eqb_spec c "010"). }
    destruct (PyStr.split_keepends t) as [|l ls]; inversion IH; subst.
    + apply Lines_last; [done|]. simpl. by rewrite Hnl.
    + apply Lines_last; [done|]. simpl. by rewrite Hnl.
    + apply (Lines_cons (String c body) rest ls); [|done].
      simpl. by rewrite Hnl.
Qed.

Lemma split_keepends_body body :
  body ≠ "" → string_forall not_lf body = true →
  PyStr.split_keepends body = [body].
Proof.
  induction body as [|c s IH]; [done|]. intros _. simpl.
  intros [Hc Hs]%andb_true_iff. unfold not_lf in Hc.
  destruct (Ascii.eqb c "010"); [done|].
  destruct s as [|a s']; [done|]. by rewrite IH.
Qed.

Lemma split_keepends_line body rest :
  string_forall not_lf body = true →
  PyStr.split_keepends (body +:+ LF +:+ rest)
  = (body +:+ LF) :: PyStr.split_keepends rest.
Proof.
  induction body as [|c s IH]; [done|]. simpl.
  intros [Hc Hs]%andb_true_iff. unfold not_lf in Hc.
  rewrite !app_cons. simpl.
  destruct (Ascii.eqb c "010"); [done|]. by rewrite IH.
Qed.

(** [split_keepends] yields the lines of the text, and nothing else does. *)
Lemma Lines_split_keepends t ls : Lines t ls ↔ ls = PyStr.split_keepends t.
Proof.
  split; [|intros ->; apply split_keepends_Lines].
  induction 1 as [|body Hne Hb|body rest ls Hb _ IH]; [done|..].
  - by rewrite split_keepends_body.
  - by rewrite split_keepends_line, IH.
Qed.

Lemma Lines_shape t ls :
  Lines t ls →
  Forall (λ l, ∃ body, string_forall not_lf body = true
                       ∧ (l = body ∨ l = body +:+ LF)) ls.
Proof. induction 1; repeat constructor; eauto. Qed.

Lemma split_keepends_forall P t :
  string_forall P t = true →
  Forall (λ l, string_forall P l = true) (PyStr.split_keepends t).
Proof.
  induction t as [|c t IH]; [constructor|]. simpl.
  intros [Hc Ht]%andb_true_iff. specialize (IH Ht).
  destruct (Ascii.eqb c "010").
  - constructor; [|done]. simpl. by rewrite Hc.
  - destruct (PyStr.split_keepends t) as [|l ls].
    + repeat constructor. simpl. by rewrite Hc.
    + inversion IH; subst. constructor; [|done]. simpl. by rewrite Hc.
Qed.

Lemma fold_left_snoc_map {A B} (f : A → B) (l : list A) (acc : list B) :
  fold_left (λ contents x, contents ++ [f x]) l acc = acc ++ (f <$> l).
Proof.
  revert acc. induction l as [|x l IH]; intros acc; simpl.
  - by rewrite app_nil_r.
  - by rewrite IH, <- app_assoc.
Qed.

(** Every line that loading yields is clean. *)
Lemma loaded_lines_clean content :
  Forall clean_line (PyStr.strip <$> PyStr.readlines content).
Proof.
  unfold PyStr.readlines. apply Forall_fmap.
  pose proof (Lines_shape _ _ (split_keepends_Lines
                (PyStr.translate_newlines content))) as Hshape.
  pose proof (split_keepends_forall not_cr _
                (translate_newlines_no_cr content)) as Hcr.
  induction Hshape as [|l ls (body & Hb & Hl) _ IH];
    inversion Hcr as [|? ? Hl_cr Hls_cr]; subst; constructor; [|by auto].
  split; [apply strip_idem|]. simpl.
  assert (string_forall not_newline body = true) as Hbody.
  { rewrite string_forall_not_newline, Hb. simpl.
    destruct Hl as [->| ->]; [done|].
    rewrite string_forall_app in Hl_cr. by apply andb_true_iff in Hl_cr as [? _]. }
  destruct Hl as [->| ->]; [|rewrite strip_snoc_LF]; by apply strip_forall.
Qed.

End Lines.

(** ** Writing lines and reading them back *)

Section RoundTrip.
Implicit Types (l : string) (L : list string).

Lemma join_cons_cons sep l l' L :
  PyStr.join sep (l :: l' :: L) = l +:+ sep +:+ PyStr.join sep (l' :: L).
Proof. reflexivity. Qed.

Lemma clean_line_no_lf l : clean_line l → string_forall not_lf l = true.
Proof.
  intros [_ H]. rewrite string_forall_not_newline in H.
  by apply andb_true_iff in H as [? _].
Qed.

Lemma clean_line_no_cr l : clean_line l → string_forall not_cr l = true.
Proof.
  intros [_ H]. rewrite string_forall_not_newline in H.
  by apply andb_true_iff in H as [_ ?].
Qed.

Lemma join_LF_no_cr L :
  Forall clean_line L → string_forall not_cr (PyStr.join LF L) = true.
Proof.
  induction 1 as [|l L Hl HL IH]; [done|].
  destruct L as [|l' L]; [by apply clean_line_no_cr|].
  rewrite join_cons_cons, !string_forall_app, IH.
  by rewrite clean_line_no_cr.
Qed.

(** Lines that are clean and do not end with an empty line are read back
    as they were written. *)
Lemma readlines_join L :
  Forall clean_line L → last L ≠ Some "" →
  PyStr.strip <$> PyStr.readlines (PyStr.join LF L) = L.
Proof.
  intros HL Hlast. unfold PyStr.readlines.
  rewrite translate_newlines_id by by apply join_LF_no_cr.
  induction HL as [|l L Hl HL IH]; [done|].
  destruct L as [|l' L].
  - change (PyStr.join LF [l]) with l.
    rewrite split_keepends_body.
    + simpl. f_equal. apply Hl.
    + intros ->. by apply Hlast.
    + by apply clean_line_no_lf.
  - rewrite join_cons_cons, split_keepends_line by by apply clean_line_no_lf.
    rewrite fmap_cons, IH by done.
    rewrite strip_snoc_LF. f_equal. apply Hl.
Qed.

End RoundTrip.

(** ** The store *)

Section Store.
Implicit Types (σ : gmap path string) (d n : string) (p : path).

Lemma elem_of_listdir σ d n : n ∈ listdir σ d ↔ is_Some (σ !! (d, n)).
Proof.
  unfold listdir. rewrite list_elem_of_omap. split.
  - intros ([[d' n'] c] & Hin & Heq). simpl in Heq.
    case_decide; simplify_eq. apply elem_of_map_to_list in Hin. eauto.
  - intros [c Hc]. exists ((d, n), c). split.
    + by apply elem_of_map_to_list.
    + simpl. by rewrite decide_True.
Qed.

Lemma NoDup_listdir σ d : NoDup (listdir σ d).
Proof.
  unfold listdir. pose proof (NoDup_fst_map_to_list σ) as Hnd.
  induction (map_to_list σ) as [|[[d' n'] c] l IH]; [constructor|].
  rewrite fmap_cons in Hnd. apply NoDup_cons in Hnd as [Hnotin Hnd].
  simpl. case_decide as Hd; [|by auto]. subst d'.
  apply NoDup_cons. split; [|by auto].
  intros ([[d'' n''] c''] & Hin & Heq)%list_elem_of_omap. simpl in Heq.
  case_decide; simplify_eq. apply Hnotin.
  apply list_elem_of_fmap. by exists ((d, n'), c'').
Qed.

(** Writing a file adds its name to the listing of its directory, and
    changes no other listing. *)
Lemma elem_of_listdir_insert σ p c d n :
  n ∈ listdir (<[p := c]> σ) d ↔ p = (d, n) ∨ n ∈ listdir σ d.
Proof.
  rewrite !elem_of_listdir. destruct (decide (p = (d, n))) as [->|Hne].
  - rewrite lookup_insert_eq. split; [by left|by eauto].
  - rewrite lookup_insert_ne by done. split; [by right|by intros [?|?]].
Qed.

Lemma filter_unique {A} (P : A → bool) (l : list A) (x : A) :
  NoDup l → x ∈ l → P x = true → (∀ y, y ∈ l → P y = true → y = x) →
  List.filter P l = [x].
Proof.
  intros Hnd Hin Hx Huniq.
  assert (∀ l', (∀ y, y ∈ l' → P y = true → y = x) → x ∉ l' →
                List.filter P l' = []) as Hnone.
  { induction l' as [|y l' IH]; [done|]. intros Hu Hnotin. simpl.
    destruct (P y) eqn:Hy.
    - destruct Hnotin. rewrite (Hu y); [left|left|done].
    - apply IH; [|set_solver]. intros z Hz. apply Hu. by right. }
  induction l as [|y l IH]; [by apply elem_of_nil in Hin|].
  apply NoDup_cons in Hnd as [Hy Hnd]. simpl.
  apply elem_of_cons in Hin as [<-|Hin].
  - rewrite Hx. f_equal. apply Hnone; [|done].
    intros z Hz. apply Huniq. by right.
  - destruct (P y) eqn:HPy.
    + destruct Hy. rewrite (Huniq y); [done|left|done].
    + apply IH; [done..|]. intros z Hz. apply Huniq. by right.
Qed.

End Store.

(** ** What each method computes *)

Section Methods.
Implicit Types (σ : gmap path string) (p : path) (self : Focus).
Implicit Types (L domains : list string).

Lemma _read_run p σ :
  _read p σ
  = match σ !! p with
    | Some content => (Ok (PyStr.strip <$> PyStr.readlines content), σ)
    | None => (Raise (FileNotFoundError p.1 p.2), σ)
    end.
Proof.
  unfold _read, bind, os_path_exists, open_readlines, raise, ret.
  destruct (σ !! p) as [content|] eqn:Hp.
  - rewrite bool_decide_eq_true_2 by eauto. simpl.
    by rewrite Hp, fold_left_snoc_map.
  - rewrite bool_decide_eq_false_2; [done|]. by intros [? ?].
Qed.

Lemma _write_run p L σ :
  _write p L σ = (Ok (), <[p := PyStr.join LF L]> σ).
Proof. reflexivity. Qed.

Lemma _backup_run self σ :
  _backup self σ
  = (Ok (snapshot_of self),
     match σ !! _current_backup_path (snapshot_of self) with
     | Some _ => σ
     | None => <[_current_backup_path (snapshot_of self)
                 := PyStr.join LF (hosts_contents self)]> σ
     end).
Proof.
  unfold _backup, bind, os_makedirs, os_path_exists, ret, snapshot_of.
  cbv zeta. cbn [_current_backup_path hosts_contents].
  destruct (σ !! _) as [c|] eqn:Hp.
  - by rewrite bool_decide_eq_true_2 by eauto.
  - rewrite bool_decide_eq_false_2; [done|]. by intros [? ?].
Qed.

Lemma forbid_loop L acc b :
  (fold_left forbid_step L (acc, b)).1 = acc ++ unmanaged_from b L.
Proof.
  revert acc b. induction L as [|line L IH]; intros acc b; simpl.
  - by rewrite app_nil_r.
  - destruct (PyStr.startswith line FOCUS_BOS); [apply IH|].
    destruct b; simpl.
    + destruct (PyStr.startswith line FOCUS_EOS); apply IH.
    + by rewrite IH, <- app_assoc.
Qed.

Lemma forbid_domains_run self domains σ :
  forbid_domains self domains σ
  = match hosts_contents self with
    | [] => (Raise RuntimeError_NotFoundContents, σ)
    | _ => (Ok (),
            <[TARGET_FILE_PATH
              := PyStr.join LF (unmanaged (hosts_contents self)
                                ++ managed_section domains)]> σ)
    end.
Proof.
  unfold forbid_domains. destruct (hosts_contents self) as [|l L]; [done|].
  cbv zeta. rewrite _write_run, forbid_loop.
  rewrite (fold_left_snoc_map mapping_line).
  unfold managed_section, unmanaged. simpl app at 1.
  by rewrite <- !app_assoc.
Qed.

Lemma forbid_domains_ok self domains σ :
  hosts_contents self ≠ [] →
  forbid_domains self domains σ
  = (Ok (),
     <[TARGET_FILE_PATH
       := PyStr.join LF (unmanaged (hosts_contents self)
                         ++ managed_section domains)]> σ).
Proof.
  intros Hne. rewrite forbid_domains_run.
  by destruct (hosts_contents self).
Qed.

Lemma restore_run self hash σ :
  restore self hash σ
  = let h := default (_current_hash self) hash in
    let tgt_file :=
      List.filter (λ backup, PyStr.startswith backup h)
                  (listdir σ (backup_dir self)) in
    match tgt_file with
    | [name] =>
        match σ !! (backup_dir self, name) with
        | Some content =>
            (Ok (), <[TARGET_FILE_PATH
                      := PyStr.join LF (PyStr.strip <$>
                                          PyStr.readlines content)]> σ)
        | None => (Raise (FileNotFoundError (backup_dir self) name), σ)
        end
    | _ => (Raise (RuntimeError_BackupNotSpecified tgt_file), σ)
    end.
Proof.
  unfold restore, bind at 1, os_listdir. cbv zeta.
  destruct (List.filter _ _) as [|name [|name' l]]; [done| |done].
  simpl. unfold bind. rewrite _read_run. unfold os_path_join.
  by destruct (σ !! _).
Qed.

End Methods.

(** ** Taking the managed section out *)

Section Unmanaged.
Implicit Types (line b e : string) (L pre mid post : list string).

Lemma unmanaged_from_keep pre L :
  Forall (λ l, PyStr.startswith l FOCUS_BOS = false) pre →
  unmanaged_from false (pre ++ L) = pre ++ unmanaged_from false L.
Proof.
  induction 1 as [|l pre Hl _ IH]; [done|]. simpl. by rewrite Hl, IH.
Qed.

Lemma unmanaged_from_skip mid L :
  Forall (λ l, PyStr.startswith l FOCUS_EOS = false) mid →
  unmanaged_from true (mid ++ L) = unmanaged_from true L.
Proof.
  induction 1 as [|l mid Hl _ IH]; [done|]. simpl. rewrite Hl. simpl.
  by destruct (PyStr.startswith l FOCUS_BOS).
Qed.

Lemma unmanaged_no_marker L :
  Forall (λ l, PyStr.startswith l FOCUS_BOS = false) L → unmanaged L = L.
Proof.
  intros HL. unfold unmanaged.
  rewrite <- (app_nil_r L) at 1. rewrite unmanaged_from_keep by done.
  apply app_nil_r.
Qed.

(** The two markers differ in their third character. *)
Lemma EOS_not_BOS e :
  PyStr.startswith e FOCUS_EOS = true → PyStr.startswith e FOCUS_BOS = false.
Proof.
  unfold PyStr.startswith, FOCUS_EOS, FOCUS_BOS.
  destruct e as [|c0 [|c1 [|c2 r]]]; cbn [String.prefix]; try done;
    repeat (destruct (ascii_dec _ _); try done); congruence.
Qed.

Lemma unmanaged_shape pre b mid e post :
  Forall (λ l, PyStr.startswith l FOCUS_BOS = false) pre →
  PyStr.startswith b FOCUS_BOS = true →
  Forall (λ l, PyStr.startswith l FOCUS_EOS = false) mid →
  PyStr.startswith e FOCUS_EOS = true →
  Forall (λ l, PyStr.startswith l FOCUS_BOS = false) post →
  unmanaged (pre ++ b :: mid ++ e :: post) = pre ++ post.
Proof.
  intros Hpre Hb Hmid He Hpost. unfold unmanaged.
  rewrite unmanaged_from_keep by done. f_equal.
  simpl. rewrite Hb, unmanaged_from_skip by done.
  simpl. rewrite (EOS_not_BOS e He), He. simpl.
  by apply unmanaged_no_marker.
Qed.

Lemma unmanaged_from_no_BOS (b : bool) L :
  Forall (λ l, PyStr.startswith l FOCUS_BOS = false) (unmanaged_from b L).
Proof.
  revert b. induction L as [|line L IH]; intros b; simpl; [constructor|].
  destruct (PyStr.startswith line FOCUS_BOS) eqn:Hl; [apply IH|].
  destruct b; [apply IH|]. by constructor.
Qed.

Lemma unmanaged_from_sublist (b : bool) L : unmanaged_from b L `sublist_of` L.
Proof.
  revert b. induction L as [|line L IH]; intros b; simpl; [done|].
  destruct (PyStr.startswith line FOCUS_BOS); [by apply sublist_cons|].
  destruct b; [by apply sublist_cons|]. by apply sublist_skip.
Qed.

Lemma unmanaged_managed_section domains :
  unmanaged_from false (managed_section domains) = [].
Proof.
  unfold managed_section.
  change (unmanaged_from true ((mapping_line <$> domains) ++ [FOCUS_EOS])
          = []).
  rewrite unmanaged_from_skip; [done|].
  apply Forall_fmap, Forall_true. by intros d.
Qed.

Lemma unmanaged_updated L domains :
  unmanaged (unmanaged L ++ managed_section domains) = unmanaged L.
Proof.
  unfold unmanaged at 1.
  rewrite unmanaged_from_keep by apply unmanaged_from_no_BOS.
  by rewrite unmanaged_managed_section, app_nil_r.
Qed.

Lemma unmanaged_from_Forall (P : string → Prop) (b : bool) L :
  Forall P L → Forall P (unmanaged_from b L).
Proof.
  intros HL. revert b. induction HL as [|line L Hl _ IH]; intros b; simpl;
    [constructor|].
  destruct (PyStr.startswith line FOCUS_BOS); [apply IH|].
  destruct b; [apply IH|]. by constructor.
Qed.

End Unmanaged.

(** Reading the target file right after a block was applied yields the
    lines written, when the loaded lines and the mapping lines are clean. *)
Lemma forbid_domains_reread (self : Focus) (domains : list string)
    (σ : gmap path string) :
  hosts_contents self ≠ [] →
  Forall clean_line (hosts_contents self) →
  Forall (λ d, clean_line (mapping_line d)) domains →
  (do_ forbid_domains self domains; _read TARGET_FILE_PATH) σ
  = (Ok (unmanaged (hosts_contents self) ++ managed_section domains),
     <[TARGET_FILE_PATH
       := PyStr.join LF (unmanaged (hosts_contents self)
                         ++ managed_section domains)]> σ).
Proof.
  intros Hne HL Hdomains. unfold bind.
  rewrite forbid_domains_ok by done.
  rewrite _read_run, lookup_insert_eq, readlines_join; [done|..].
  - apply Forall_app. split; [by apply unmanaged_from_Forall|].
    unfold managed_section. constructor; [by split|].
    apply Forall_app. split; [by apply Forall_fmap|].
    by repeat constructor.
  - unfold managed_section.
    rewrite (app_comm_cons _ _ FOCUS_BOS), app_assoc, last_snoc.
    discriminate.
Qed.

(** ** What stripping cuts off *)

Section Stripped.
Implicit Types (s t l : string) (c : ascii).

Lemma string_app_assoc s t l : (s +:+ t) +:+ l = s +:+ (t +:+ l).
Proof. induction s as [|c s IH]; [done|]. by rewrite !app_cons, IH. Qed.

Lemma cons_eq_snoc c s t a :
  String c s = t +:+ String a "" →
  (t = "" ∧ s = "" ∧ c = a) ∨ (∃ t', t = String c t' ∧ s = t' +:+ String a "").
Proof.
  destruct t as [|b t'].
  - intros [= -> <-]. by left.
  - rewrite app_cons. intros [= <- ->]. right. by exists t'.
Qed.

Lemma lstrip_spec s :
  ∃ pre, s = pre +:+ PyStr.lstrip s
         ∧ string_forall PyStr.isspace pre = true
         ∧ ∀ c t, PyStr.lstrip s = String c t → PyStr.isspace c = false.
Proof.
  induction s as [|a s (pre & Hs & Hpre & Hhead)].
  - by exists "".
  - cbn [PyStr.lstrip]. destruct (PyStr.isspace a) eqn:Ha.
    + exists (String a pre). rewrite app_cons, <- Hs. split; [done|].
      split; [|done]. cbn [string_forall]. by rewrite Ha, Hpre.
    + exists "". split; [done|]. split; [done|]. by intros c t [= <- _].
Qed.

Lemma rstrip_spec s :
  ∃ post, s = PyStr.rstrip s +:+ post
          ∧ string_forall PyStr.isspace post = true
          ∧ ∀ t c, PyStr.rstrip s = t +:+ String c "" →
                   PyStr.isspace c = false.
Proof.
  induction s as [|a s (post & Hs & Hpost & Hlast)].
  - exists "". split; [done|]. split; [done|]. by intros [|b t] c.
  - cbn [PyStr.rstrip]. destruct (PyStr.rstrip s) as [|b r] eqn:Hr.
    + destruct (PyStr.isspace a) eqn:Ha.
      * exists (String a post). rewrite Hs at 1. split; [done|].
        split; [|by intros [|b t] c]. cbn [string_forall]. by rewrite Ha, Hpost.
      * exists post. rewrite Hs at 1. split; [done|]. split; [done|].
        intros t c [(_ & _ & <-)|(t' & _ & Ht')]%cons_eq_snoc; [done|].
        by destruct t'.
    + exists post. rewrite Hs at 1. split; [done|]. split; [done|].
      intros t c [(_ & [=] & _)|(t' & _ & Ht')]%cons_eq_snoc.
      by apply (Hlast t').
Qed.

(** [strip] cuts white space off both ends, and all of it. *)
Lemma strip_stripped_of s : stripped_of s (PyStr.strip s).
Proof.
  destruct (rstrip_spec s) as (post & Hs & Hpost & Hlast).
  destruct (lstrip_spec (PyStr.rstrip s)) as (pre & Hr & Hpre & Hhead).
  exists pre, post. unfold PyStr.strip.
  split; [|split; [done|split; [done|split; [done|]]]].
  - rewrite Hs at 1. rewrite Hr at 1. by rewrite string_app_assoc.
  - intros t c Ht. apply (Hlast (pre +:+ t)).
    rewrite Hr at 1. by rewrite Ht, string_app_assoc.
Qed.

End Stripped.

(** ** Lines in and out of a section *)

Section InSection.
Implicit Types (line b : string) (L before mid : list string).

Lemma in_section_snoc before line :
  in_section (before ++ [line])
  = if starts_section line || ends_section line then starts_section line
    else in_section before.
Proof.
  unfold in_section. rewrite rev_unit. cbn [find].
  by destruct (starts_section line || ends_section line).
Qed.

(** A line lies in a section exactly when a begin-marker line comes before
    it with no marker line in between. *)
Lemma in_section_spec before :
  in_section before = true
  ↔ ∃ pre b mid,
      before = pre ++ b :: mid
      ∧ starts_section b = true
      ∧ Forall (λ l, starts_section l = false ∧ ends_section l = false) mid.
Proof.
  split.
  - induction before as [|line before IH] using rev_ind; [done|].
    rewrite in_section_snoc.
    destruct (starts_section line) eqn:Hb; cbn [orb].
    { intros _. exists before, line, []. by repeat split. }
    destruct (ends_section line) eqn:He; [done|].
    intros (pre & b & mid & -> & Hb' & Hmid)%IH.
    exists pre, b, (mid ++ [line]). rewrite <- app_assoc. split; [done|].
    split; [done|]. apply Forall_app. by repeat constructor.
  - intros (pre & b & mid & -> & Hb & Hmid). revert Hmid.
    induction mid as [|line mid IH] using rev_ind; intros Hmid.
    + by rewrite in_section_snoc, Hb.
    + apply Forall_app in Hmid as [Hmid [[Hl Hl'] _]%Forall_cons].
      rewrite app_comm_cons, app_assoc, in_section_snoc, Hl, Hl'.
      by apply IH.
Qed.

Lemma unmanaged_from_select before L :
  unmanaged_from (in_section before) L
  = select_in_context kept_at before L.
Proof.
  revert before. induction L as [|line L IH]; intros before; [done|].
  cbn [unmanaged_from select_in_context]. rewrite <- IH, in_section_snoc.
  unfold kept_at. fold (starts_section line). fold (ends_section line).
  destruct (starts_section line) eqn:Hb; [done|]. cbn [negb andb orb].
  destruct (in_section before); cbn [negb].
  - by destruct (ends_section line).
  - by destruct (ends_section line).
Qed.

Lemma unmanaged_outside_sections L : unmanaged L = outside_sections L.
Proof. apply (unmanaged_from_select []). Qed.

End InSection.

(** ** Loading *)

(** C8: loading a file yields, in file order, its lines with the white
    space cut off both ends of each, and raises the file-not-found error
    exactly when the file is absent; the store is left as it was. *)
Theorem read_spec (p : path) (σ : gmap path string) :
  ((_read p σ).1 = Raise (FileNotFoundError p.1 p.2) ↔ σ !! p = None)
  ∧ (is_raise (_read p σ).1 = true ↔ σ !! p = None)
  ∧ (_read p σ).2 = σ
  ∧ match σ !! p with
    | Some content =>
        ∃ lines contents,
          Lines (PyStr.translate_newlines content) lines
          ∧ (_read p σ).1 = Ok contents
          ∧ Forall2 stripped_of lines contents
          ∧ contents = (PyStr.strip <$> lines)
    | None => True
    end.
Proof.
  rewrite _read_run. destruct (σ !! p) as [content|]; simpl.
  - repeat split; try done.
    exists (PyStr.readlines content), (PyStr.strip <$> PyStr.readlines content).
    split; [apply split_keepends_Lines|]. split; [done|]. split; [|done].
    apply Forall2_fmap_r, Forall_Forall2_diag, Forall_true.
    apply strip_stripped_of.
  - done.
Qed.

(** ** Applying a block *)

(** C9: [forbid_domains] raises the empty-content error exactly when the
    loaded line list is empty, and then leaves the store as it was; a list of
    empty lines is not empty and raises nothing. *)
Theorem forbid_domains_empty (self : Focus) (domains : list string)
    (σ : gmap path string) :
  ((forbid_domains self domains σ).1 = Raise RuntimeError_NotFoundContents
   ↔ hosts_contents self = [])
  ∧ (is_raise (forbid_domains self domains σ).1 = true
     ↔ hosts_contents self = [])
  ∧ match hosts_contents self with
    | [] => (forbid_domains self domains σ).2 = σ
    | _ => (forbid_domains self domains σ).1 = Ok ()
    end
  ∧ ∀ k, (forbid_domains (with_contents self (replicate (S k) ""))
                         domains σ).1 = Ok ().
Proof.
  rewrite !forbid_domains_run.
  split; [|split; [|split]].
  - by destruct (hosts_contents self).
  - by destruct (hosts_contents self).
  - by destruct (hosts_contents self).
  - intros k. by rewrite forbid_domains_run.
Qed.

(** C1, amended: for every loaded line list that is not empty and every
    domain list, [forbid_domains] writes to the target file the loaded
    lines, in their order, without the lines that start with the begin
    marker and the lines in a section (those for which the last line before
    them that starts with either marker starts with the begin marker: a
    section runs from a begin-marker line through the next end-marker line,
    or to the end of the list when none follows), then the begin marker,
    one line "127.0.0.1 d" per domain d in the order given, then the end
    marker. *)
Theorem forbid_domains_writes (self : Focus) (domains : list string)
    (σ : gmap path string) :
  hosts_contents self ≠ [] →
  forbid_domains self domains σ
  = (Ok (),
     <[TARGET_FILE_PATH
       := PyStr.join LF (outside_sections (hosts_contents self)
                         ++ [FOCUS_BOS]
                         ++ ((λ d, "127.0.0.1 " +:+ d) <$> domains)
                         ++ [FOCUS_EOS])]> σ)
  ∧ outside_sections (hosts_contents self) `sublist_of` hosts_contents self
  ∧ (∀ before,
       in_section before = true
       ↔ ∃ pre b mid,
           before = pre ++ b :: mid
           ∧ PyStr.startswith b FOCUS_BOS = true
           ∧ Forall (λ l, PyStr.startswith l FOCUS_BOS = false
                          ∧ PyStr.startswith l FOCUS_EOS = false) mid)
  ∧ (∀ pre mid post,
       hosts_contents self = pre ++ FOCUS_BOS :: mid ++ FOCUS_EOS :: post →
       Forall (λ l, PyStr.startswith l FOCUS_BOS = false) pre →
       Forall (λ l, PyStr.startswith l FOCUS_EOS = false) mid →
       Forall (λ l, PyStr.startswith l FOCUS_BOS = false) post →
       outside_sections (hosts_contents self) = pre ++ post)
  ∧ (∀ pre rest,
       hosts_contents self = pre ++ FOCUS_BOS :: rest →
       Forall (λ l, PyStr.startswith l FOCUS_BOS = false) pre →
       Forall (λ l, PyStr.startswith l FOCUS_EOS = false) rest →
       outside_sections (hosts_contents self) = pre)
  ∧ (Forall (λ l, PyStr.startswith l FOCUS_BOS = false) (hosts_contents self) →
     outside_sections (hosts_contents self) = hosts_contents self).
Proof.
  intros Hne. rewrite forbid_domains_run, <- unmanaged_outside_sections.
  split; [by destruct (hosts_contents self)|].
  split; [apply unmanaged_from_sublist|].
  split; [apply in_section_spec|].
  split; [|split; [|apply unmanaged_no_marker]].
  - intros pre mid post -> Hpre Hmid Hpost. by apply unmanaged_shape.
  - intros pre rest -> Hpre Hrest. unfold unmanaged.
    rewrite unmanaged_from_keep by done. cbn [unmanaged_from].
    change (PyStr.startswith FOCUS_BOS FOCUS_BOS) with true. cbv iota.
    rewrite <- (app_nil_r rest), unmanaged_from_skip by done.
    apply app_nil_r.
Qed.

Lemma forbid_domains_writes_witness :
  let self := mkFocus "backups" true
                ["127.0.0.1 localhost"; FOCUS_BOS; "127.0.0.1 old.example";
                 FOCUS_EOS; "::1 localhost"] "" ("", "") in
  forbid_domains self ["x.com"; "y.org"] ∅
  = (Ok (),
     <[TARGET_FILE_PATH
       := PyStr.join LF ["127.0.0.1 localhost"; "::1 localhost";
                         "# Added by Focus"; "127.0.0.1 x.com";
                         "127.0.0.1 y.org"; "# End of Focus section"]]> ∅).
Proof.
  intros self.
  destruct (forbid_domains_writes self ["x.com"; "y.org"] ∅)
    as (Hw & _ & _ & Hs & _); [discriminate|].
  rewrite Hw.
  rewrite (Hs ["127.0.0.1 localhost"] ["127.0.0.1 old.example"]
              ["::1 localhost"]); [reflexivity|reflexivity|..];
    repeat constructor.
Defined.

(** An empty hosts file loads as the empty list, on which [forbid_domains]
    raises and writes nothing: the file does not hold the section.  After a
    begin marker that no end marker follows, where there is no section
    between two markers to remove, the lines that follow are not written.
    And lines that start with a marker and go on, which are no marker
    lines, are taken out as a section all the same. *)
Lemma forbid_domains_writes_counterexample :
  let σ0 : gmap path string := {[TARGET_FILE_PATH := ""]} in
  let h := SHA256.hexdigest "" in
  let self := mkFocus "backups" true [] h ("backups", h) in
  let σ1 := (__init__ "backups" true σ0).2 in
  let self' := mkFocus "backups" true
                 ["127.0.0.1 localhost"; "# Added by Focus";
                  "10.0.0.1 intranet"] "" ("", "") in
  let written := ["127.0.0.1 localhost"; "# Added by Focus";
                  "127.0.0.1 x.com"; "# End of Focus section"] in
  let self'' := mkFocus "backups" true
                  ["a"; "# Added by Focus (old)"; "b";
                   "# End of Focus section (old)"; "c"] "" ("", "") in
  let written' := ["a"; "c"; "# Added by Focus"; "127.0.0.1 x.com";
                   "# End of Focus section"] in
  ((__init__ "backups" true σ0).1 = Ok self
   ∧ forbid_domains self ["x.com"] σ1
     = (Raise RuntimeError_NotFoundContents, σ1)
   ∧ σ1 !! TARGET_FILE_PATH = Some ""
   ∧ σ1 !! TARGET_FILE_PATH
     ≠ Some (PyStr.join LF (unmanaged [] ++ [FOCUS_BOS]
                            ++ ["127.0.0.1 x.com"] ++ [FOCUS_EOS])))
  ∧ (forbid_domains self' ["x.com"] ∅
     = (Ok (), <[TARGET_FILE_PATH := PyStr.join LF written]> ∅)
     ∧ "10.0.0.1 intranet" ∈ hosts_contents self'
     ∧ "10.0.0.1 intranet" ∉ written)
  ∧ (forbid_domains self'' ["x.com"] ∅
     = (Ok (), <[TARGET_FILE_PATH := PyStr.join LF written']> ∅)
     ∧ (FOCUS_BOS ∉ hosts_contents self'')
     ∧ (FOCUS_EOS ∉ hosts_contents self'')
     ∧ "b" ∈ hosts_contents self''
     ∧ "b" ∉ written').
Proof.
  intros σ0 h self σ1 self' written self'' written'.
  assert (∀ (x : string) (l : list string),
            forallb (λ y, negb (String.eqb x y)) l = true → x ∉ l) as Hnotin.
  { intros x l. induction l as [|y l IH]; intros Hl Hx.
    - by apply elem_of_nil in Hx.
    - cbn [forallb] in Hl. apply andb_true_iff in Hl as [Hy Hl].
      apply elem_of_cons in Hx as [->|Hx]; [|by apply IH].
      by rewrite String.eqb_refl in Hy. }
  split; [|split].
  - split; [vm_compute; reflexivity|].
    split; [reflexivity|]. split; [vm_compute; reflexivity|].
    vm_compute. discriminate.
  - split; [reflexivity|]. split.
    + cbn [hosts_contents self']. by do 2 right; left.
    + apply Hnotin. reflexivity.
  - split; [reflexivity|].
    split; [apply Hnotin; reflexivity|].
    split; [apply Hnotin; reflexivity|]. split.
    + cbn [hosts_contents self'']. by do 2 right; left.
    + apply Hnotin. reflexivity.
Qed.

(** C4, amended: a line is a begin marker when it starts with
    "# Added by Focus" and, inside a section, an end marker when it starts
    with "# End of Focus section", whatever follows on the line: the section
    from a line [b] with the first prefix to a line [e] with the second is
    taken out, markers included, and no line with the first prefix is ever
    kept. *)
Theorem markers_by_prefix (self : Focus) (domains : list string)
    (σ : gmap path string) (pre mid post : list string) (b e : string) :
  hosts_contents self = pre ++ b :: mid ++ e :: post →
  Forall (λ l, PyStr.startswith l FOCUS_BOS = false) pre →
  PyStr.startswith b FOCUS_BOS = true →
  Forall (λ l, PyStr.startswith l FOCUS_EOS = false) mid →
  PyStr.startswith e FOCUS_EOS = true →
  Forall (λ l, PyStr.startswith l FOCUS_BOS = false) post →
  forbid_domains self domains σ
  = (Ok (),
     <[TARGET_FILE_PATH
       := PyStr.join LF (pre ++ post ++ managed_section domains)]> σ)
  ∧ Forall (λ l, PyStr.startswith l FOCUS_BOS = false)
           (unmanaged (hosts_contents self)).
Proof.
  intros HL Hpre Hb Hmid He Hpost.
  split; [|apply unmanaged_from_no_BOS].
  rewrite forbid_domains_run, HL, unmanaged_shape by done.
  rewrite <- app_assoc. by destruct pre.
Qed.

Lemma markers_by_prefix_witness :
  let self := mkFocus "backups" true
                ["a"; "# Added by Focus (old)"; "127.0.0.1 old.example";
                 "# End of Focus section, old"; "# End of Focus section";
                 "b"] "" ("", "") in
  forbid_domains self ["x.com"] ∅
  = (Ok (),
     <[TARGET_FILE_PATH
       := PyStr.join LF ["a"; "# End of Focus section"; "b";
                         "# Added by Focus"; "127.0.0.1 x.com";
                         "# End of Focus section"]]> ∅).
Proof.
  intros self.
  apply (markers_by_prefix self ["x.com"] ∅ ["a"] ["127.0.0.1 old.example"]
           ["# End of Focus section"; "b"] "# Added by Focus (old)"
           "# End of Focus section, old");
    first [reflexivity | repeat constructor].
Defined.

(** A line that starts with the begin marker and goes on opens a section:
    it is dropped, and so is what follows it. *)
Lemma markers_by_prefix_counterexample :
  let self := mkFocus "backups" true
                ["a"; "# Added by Focus (old)"; "b"] "" ("", "") in
  let σ1 := (forbid_domains self [] ∅).2 in
  "# Added by Focus (old)" ≠ FOCUS_BOS
  ∧ σ1 !! TARGET_FILE_PATH
    = Some (PyStr.join LF ["a"; FOCUS_BOS; FOCUS_EOS])
  ∧ σ1 !! TARGET_FILE_PATH
    ≠ Some (PyStr.join LF ["a"; "# Added by Focus (old)"; "b";
                           FOCUS_BOS; FOCUS_EOS]).
Proof.
  intros self σ1. split; [discriminate|].
  split; [vm_compute; reflexivity|]. vm_compute. discriminate.
Qed.

(** C5: applying a block twice does not change the content outside the
    managed section: taking the section out of what the first application
    wrote gives back what it kept, so a second application, on those lines
    or on the same instance, keeps the same lines before its section. *)
Theorem forbid_domains_twice (self : Focus) (domains domains' : list string)
    (σ : gmap path string) :
  let first := unmanaged (hosts_contents self) ++ managed_section domains in
  unmanaged first = unmanaged (hosts_contents self)
  ∧ forbid_domains (with_contents self first) domains' σ
    = (Ok (),
       <[TARGET_FILE_PATH
         := PyStr.join LF (unmanaged (hosts_contents self)
                           ++ managed_section domains')]> σ)
  ∧ (do_ forbid_domains self domains; forbid_domains self domains') σ
    = forbid_domains self domains' σ.
Proof.
  intros first. split; [apply unmanaged_updated|]. split.
  - rewrite forbid_domains_run. cbn [hosts_contents with_contents].
    unfold first. rewrite unmanaged_updated.
    by destruct (unmanaged (hosts_contents self)).
  - unfold bind. rewrite (forbid_domains_run self domains σ).
    destruct (hosts_contents self) as [|l L] eqn:HL;
      rewrite !forbid_domains_run, HL; [done|].
    by rewrite insert_insert_eq.
Qed.

(** ** Snapshots *)

(** C3: a snapshot records the hex SHA-256 of the concatenated loaded lines
    and the backup path of that name; a backup that exists under that name
    is not rewritten; a second snapshot of the same content, by this
    instance or by another one on the same directory, records the same name
    and leaves the store as it is. *)
Theorem backup_twice (self : Focus) (σ : gmap path string) :
  let h := SHA256.hexdigest (PyStr.join "" (hosts_contents self)) in
  let p := os_path_join (backup_dir self) h in
  ∃ self1 σ1,
    _backup self σ = (Ok self1, σ1)
    ∧ _current_hash self1 = h
    ∧ _current_backup_path self1 = p
    ∧ match σ !! p with
      | Some _ => σ1 = σ
      | None => σ1 = <[p := PyStr.join LF (hosts_contents self)]> σ
      end
    ∧ _backup self1 σ1 = (Ok self1, σ1)
    ∧ ∀ quiet' hash' path',
        _backup (mkFocus (backup_dir self) quiet' (hosts_contents self)
                         hash' path') σ1
        = (Ok (mkFocus (backup_dir self) quiet' (hosts_contents self) h p),
           σ1).
Proof.
  intros h p. eexists _, _. split; [apply _backup_run|].
  split; [done|]. split; [done|].
  assert (∀ other, backup_dir other = backup_dir self →
            hosts_contents other = hosts_contents self →
            match σ !! p with
            | Some _ => σ
            | None => <[p := PyStr.join LF (hosts_contents self)]> σ
            end !! _current_backup_path (snapshot_of other) ≠ None) as Hthere.
  { intros other Hd Hc. unfold snapshot_of. cbn [_current_backup_path].
    rewrite Hd, Hc. fold h. fold p.
    destruct (σ !! p) eqn:Hp; [by rewrite Hp|by rewrite lookup_insert_eq]. }
  change (_current_backup_path (snapshot_of self)) with p.
  split; [by destruct (σ !! p)|]. split.
  - rewrite _backup_run.
    specialize (Hthere (snapshot_of self) eq_refl eq_refl).
    by destruct (_ !! _current_backup_path (snapshot_of (snapshot_of self))).
  - intros quiet' hash' path'. rewrite _backup_run.
    specialize (Hthere (mkFocus (backup_dir self) quiet' (hosts_contents self)
                                hash' path') eq_refl eq_refl).
    by destruct (_ !! _current_backup_path (snapshot_of (mkFocus _ _ _ _ _))).
Qed.

(** ** Restoring *)

(** C7: [restore h] raises exactly when the entries of the backup directory
    whose names start with [h] are not exactly one, and it then leaves the
    store, the target file included, as it was. *)
Theorem restore_fails_iff (self : Focus) (h : string) (σ : gmap path string) :
  let tgt_file := List.filter (λ backup, PyStr.startswith backup h)
                              (listdir σ (backup_dir self)) in
  (is_raise (restore self (Some h) σ).1 = true ↔ length tgt_file ≠ 1%nat)
  ∧ (is_raise (restore self (Some h) σ).1 = true →
     restore self (Some h) σ
     = (Raise (RuntimeError_BackupNotSpecified tgt_file), σ)).
Proof.
  intros tgt_file. rewrite restore_run. cbn [default]. cbv zeta.
  subst tgt_file. set (tgt_file := List.filter _ _).
  assert (∀ name, tgt_file = [name] →
                  is_Some (σ !! (backup_dir self, name))) as Hin.
  { intros name Hf. apply elem_of_listdir, list_elem_of_In.
    apply (proj1 (filter_In (λ backup, PyStr.startswith backup h) name _)).
    change (In name tgt_file). rewrite Hf. by left. }
  clearbody tgt_file.
  destruct tgt_file as [|name [|name' l]]; simpl.
  - split; [|done]. split; [intros _; lia|done].
  - destruct (Hin name eq_refl) as [c ->]. simpl.
    split; [|done]. split; [done|lia].
  - split; [|done]. split; [intros _; lia|done].
Qed.

Lemma restore_fails_iff_witness :
  let self := mkFocus "backups" true ["a"] "" ("", "") in
  let σ : gmap path string :=
    <[("backups", "abc1") := "old"]> (<[("backups", "abc2") := "older"]>
      (<[TARGET_FILE_PATH := "now"]> ∅)) in
  is_raise (restore self (Some "abc") σ).1 = true
  ∧ (restore self (Some "abc") σ).2 = σ.
Proof.
  intros self σ.
  assert (is_raise (restore self (Some "abc") σ).1 = true) as Hraise.
  { apply (proj1 (restore_fails_iff self "abc" σ)). vm_compute. discriminate. }
  split; [exact Hraise|].
  by rewrite (proj2 (restore_fails_iff self "abc" σ) Hraise).
Defined.

(** ** The digest is 64 characters long *)

Section DigestLength.

Lemma hex_go_length n x rest :
  String.length (SHA256.hex_go n x rest) = (n + String.length rest)%nat.
Proof. induction n as [|n IH]; [done|]. simpl. by rewrite IH. Qed.

Lemma compress_length H block :
  length H = 8%nat → length (SHA256.compress H block) = 8%nat.
Proof. intros HH. unfold SHA256.compress. by rewrite length_zip_with, HH. Qed.

Lemma digest_words_length msg : length (SHA256.digest_words msg) = 8%nat.
Proof.
  unfold SHA256.digest_words. cbv zeta.
  generalize (SHA256.chunks (length (SHA256.pad msg)) (SHA256.pad msg)).
  assert (length SHA256.H0 = 8%nat) as HH by (vm_compute; reflexivity).
  revert HH. generalize SHA256.H0.
  intros H HH blocks. revert H HH.
  induction blocks as [|b blocks IH]; intros H HH; [done|].
  simpl. by apply IH, compress_length.
Qed.

Lemma hexdigest_length s : String.length (SHA256.hexdigest s) = 64%nat.
Proof.
  unfold SHA256.hexdigest.
  pose proof (digest_words_length (SHA256.bytes_of s)) as Hlen.
  destruct (SHA256.digest_words _) as [|w0 [|w1 [|w2 [|w3 [|w4 [|w5 [|w6
    [|w7 [|w8 ws]]]]]]]]]; try discriminate Hlen.
  cbn [foldr]. by rewrite !hex_go_length.
Qed.

Lemma startswith_length s p :
  PyStr.startswith s p = true → (String.length p ≤ String.length s)%nat.
Proof.
  unfold PyStr.startswith. revert s.
  induction p as [|a p IH]; intros [|b s]; simpl; try done; try lia.
  destruct (ascii_dec a b); [|done]. intros Hp%IH. lia.
Qed.

(** No name shorter than a digest starts with one; so the hosts file,
    should it lie in the backup directory, is never taken for a backup. *)
Lemma not_startswith_hexdigest name s :
  (String.length name < 64)%nat →
  PyStr.startswith name (SHA256.hexdigest s) = false.
Proof.
  intros Hlen. destruct (PyStr.startswith _ _) eqn:Hs; [|done].
  apply startswith_length in Hs. rewrite hexdigest_length in Hs. lia.
Qed.

End DigestLength.

(** ** Restoring the one backup that a hash names *)

Lemma restore_unique (self : Focus) (hash : option string)
    (σ : gmap path string) (name content : string) :
  let h := default (_current_hash self) hash in
  σ !! (backup_dir self, name) = Some content →
  PyStr.startswith name h = true →
  (∀ m, m ∈ listdir σ (backup_dir self) →
        PyStr.startswith m h = true → m = name) →
  restore self hash σ
  = (Ok (), <[TARGET_FILE_PATH
              := PyStr.join LF (PyStr.strip <$> PyStr.readlines content)]> σ).
Proof.
  intros h Hc Hname Huniq. rewrite restore_run. cbv zeta. fold h.
  rewrite (filter_unique _ _ name).
  - by rewrite Hc.
  - apply NoDup_listdir.
  - apply elem_of_listdir. eauto.
  - done.
  - done.
Qed.

Lemma restore_then_read (self : Focus) (hash : option string)
    (σ : gmap path string) (name : string) (L : list string) :
  let h := default (_current_hash self) hash in
  σ !! (backup_dir self, name) = Some (PyStr.join LF L) →
  PyStr.startswith name h = true →
  (∀ m, m ∈ listdir σ (backup_dir self) →
        PyStr.startswith m h = true → m = name) →
  Forall clean_line L → last L ≠ Some "" →
  (do_ restore self hash; _read TARGET_FILE_PATH) σ
  = (Ok L, <[TARGET_FILE_PATH := PyStr.join LF L]> σ).
Proof.
  intros h Hc Hname Huniq Hclean Hlast. unfold bind.
  rewrite (restore_unique self hash σ name (PyStr.join LF L)) by done.
  rewrite readlines_join by done.
  by rewrite _read_run, lookup_insert_eq, readlines_join.
Qed.

Lemma __init___run (backup_dir : string) (quiet : bool)
    (σ : gmap path string) :
  __init__ backup_dir quiet σ
  = match σ !! TARGET_FILE_PATH with
    | Some content =>
        _backup (mkFocus backup_dir quiet
                         (PyStr.strip <$> PyStr.readlines content)
                         "" (os_path_join "" "")) σ
    | None => (Raise (FileNotFoundError "/etc" "hosts"), σ)
    end.
Proof.
  unfold __init__, bind. rewrite _read_run.
  by destruct (σ !! TARGET_FILE_PATH).
Qed.






(** C10: the digest is taken over the lines put end to end, so the lists
    ["ab"] and ["a"; "b"], which differ, have the same digest; and whenever
    an instance's lines put end to end equal those of a list [L1] whose
    backup is in the directory, its snapshot records that backup's name and
    path and writes nothing, and restoring by the recorded hash leaves the
    lines of [L1] in the target file. *)
Theorem snapshot_collision :
  (["ab"] ≠ ["a"; "b"]
   ∧ SHA256.hexdigest (PyStr.join "" ["ab"])
     = SHA256.hexdigest (PyStr.join "" ["a"; "b"]))
  ∧ ∀ (self : Focus) (L1 : list string) (σ : gmap path string),
      let h := SHA256.hexdigest (PyStr.join "" L1) in
      let p := os_path_join (backup_dir self) h in
      PyStr.join "" (hosts_contents self) = PyStr.join "" L1 →
      σ !! p = Some (PyStr.join LF L1) →
      (∀ m, m ∈ listdir σ (backup_dir self) →
            PyStr.startswith m h = true → m = h) →
      Forall clean_line L1 → last L1 ≠ Some "" →
      ∃ self',
        _backup self σ = (Ok self', σ)
        ∧ hosts_contents self' = hosts_contents self
        ∧ _current_hash self' = h
        ∧ _current_backup_path self' = p
        ∧ (do_ restore self' None; _read TARGET_FILE_PATH) σ
          = (Ok L1, <[TARGET_FILE_PATH := PyStr.join LF L1]> σ).
Proof.
  split; [by split|].
  intros self L1 σ h p Hjoin Hp Huniq Hclean Hlast.
  exists (snapshot_of self).
  assert (_current_hash (snapshot_of self) = h) as Hh.
  { unfold snapshot_of. cbn [_current_hash]. by rewrite Hjoin. }
  assert (_current_backup_path (snapshot_of self) = p) as Hpath.
  { unfold snapshot_of. cbn [_current_backup_path]. by rewrite Hjoin. }
  rewrite _backup_run, Hpath, Hp. repeat split; [done..|].
  apply (restore_then_read (snapshot_of self) None σ h L1); try done.
  - cbn [default]. rewrite Hh. apply startswith_refl.
  - cbn [default]. rewrite Hh. apply Huniq.
Qed.

Lemma snapshot_collision_witness :
  let self := mkFocus "backups" true ["a"; "b"] "" ("", "") in
  let σ : gmap path string :=
    <[("backups", SHA256.hexdigest "ab") := "ab"]>
      {[TARGET_FILE_PATH := "a" +:+ LF +:+ "b"]} in
  ∃ self',
    _backup self σ = (Ok self', σ)
    ∧ hosts_contents self' = ["a"; "b"]
    ∧ ((do_ restore self' None; _read TARGET_FILE_PATH) σ).1 = Ok ["ab"].
Proof.
  intros self σ.
  destruct (proj2 snapshot_collision self ["ab"] σ)
    as (self' & Hb & Hc & _ & _ & Hr).
  - reflexivity.
  - vm_compute. reflexivity.
  - intros m Hm _.
    assert (listdir σ "backups" = [SHA256.hexdigest "ab"]) as Hl
      by (vm_compute; reflexivity).
    change (m ∈ listdir σ "backups") in Hm. rewrite Hl in Hm.
    exact (proj1 (list_elem_of_singleton m _) Hm).
  - repeat constructor.
  - discriminate.
  - exists self'. split; [exact Hb|]. split; [exact Hc|].
    rewrite Hr. reflexivity.
Defined.

(** * Further properties of the code *)

(** ** Files written and read back *)

(** [_write] then [_read]: clean lines that do not end with an empty line
    come back as they were written, whatever the file held before. *)
Theorem write_read_roundtrip (p : path) (L : list string)
    (σ : gmap path string) :
  Forall clean_line L → last L ≠ Some "" →
  (do_ _write p L; _read p) σ = (Ok L, <[p := PyStr.join LF L]> σ).
Proof.
  intros HL Hlast. unfold bind.
  by rewrite _write_run, _read_run, lookup_insert_eq, readlines_join.
Qed.

Lemma write_read_roundtrip_witness :
  (do_ _write TARGET_FILE_PATH ["127.0.0.1 localhost"; ""; "::1 localhost"];
   _read TARGET_FILE_PATH) ∅
  = (Ok ["127.0.0.1 localhost"; ""; "::1 localhost"],
     <[TARGET_FILE_PATH
       := PyStr.join LF ["127.0.0.1 localhost"; ""; "::1 localhost"]]> ∅).
Proof.
  apply write_read_roundtrip; [|discriminate].
  repeat constructor.
Defined.

Lemma join_snoc_empty (L : list string) :
  L ≠ [] → PyStr.join LF (L ++ [""]) = PyStr.join LF L +:+ LF.
Proof.
  induction L as [|l L IH]; [done|]. intros _.
  destruct L as [|l' L]; [done|].
  change (PyStr.join LF ((l :: l' :: L) ++ [""]))
    with (l +:+ LF +:+ PyStr.join LF ((l' :: L) ++ [""])).
  rewrite IH by done. rewrite join_cons_cons.
  induction l as [|c l IHl]; [done|]. rewrite !app_cons. by rewrite IHl.
Qed.

Lemma readlines_join_snoc_empty (L : list string) :
  Forall clean_line L →
  PyStr.strip <$> PyStr.readlines (PyStr.join LF (L ++ [""])) = L.
Proof.
  intros HL. unfold PyStr.readlines.
  rewrite translate_newlines_id.
  2:{ apply join_LF_no_cr, Forall_app. split; [done|]. by repeat constructor. }
  induction HL as [|l L Hl HL IH]; [done|].
  change ((l :: L) ++ [""]) with (l :: (L ++ [""])).
  destruct (L ++ [""]) as [|l' L'] eqn:HL'; [by destruct L|].
  rewrite join_cons_cons, split_keepends_line by by apply clean_line_no_lf.
  rewrite fmap_cons, IH, strip_snoc_LF. f_equal. apply Hl.
Qed.

(** [_write] puts no line ending after the last line, so one empty line at
    the end of the list is lost: writing clean lines followed by an empty
    line and reading the file back yields the lines without it. *)
Theorem write_read_drops_final_empty_line (p : path) (L : list string)
    (σ : gmap path string) :
  Forall clean_line L →
  (do_ _write p (L ++ [""]); _read p) σ
  = (Ok L, <[p := PyStr.join LF (L ++ [""])]> σ).
Proof.
  intros HL. unfold bind.
  by rewrite _write_run, _read_run, lookup_insert_eq,
    readlines_join_snoc_empty.
Qed.

Lemma write_read_drops_final_empty_line_witness :
  ((do_ _write TARGET_FILE_PATH (["a"; ""] ++ [""]); _read TARGET_FILE_PATH)
     ∅).1
  = Ok ["a"; ""].
Proof.
  rewrite write_read_drops_final_empty_line; [reflexivity|].
  repeat constructor.
Defined.

(** Whatever file [_read] loads, each line it yields is free of leading and
    trailing white space and of line endings, and reading changes nothing;
    so the lines an instance holds after construction are clean. *)
Theorem loaded_lines_are_clean (backup_dir : string) (quiet : bool)
    (p : path) (σ : gmap path string) :
  (∀ L, (_read p σ).1 = Ok L → Forall clean_line L)
  ∧ (∀ self, (__init__ backup_dir quiet σ).1 = Ok self →
             Forall clean_line (hosts_contents self)).
Proof.
  split.
  - intros L. rewrite _read_run. destruct (σ !! p); [|done].
    intros [= <-]. apply loaded_lines_clean.
  - intros self. rewrite __init___run.
    destruct (σ !! TARGET_FILE_PATH); [|done].
    rewrite _backup_run. intros [= <-]. apply loaded_lines_clean.
Qed.

Lemma loaded_lines_are_clean_witness :
  Forall clean_line ["a b"; ""; "c"].
Proof.
  apply (proj1 (loaded_lines_are_clean "backups" true TARGET_FILE_PATH
                  {[TARGET_FILE_PATH := "  a b " +:+ LF +:+ String "013" LF
                                        +:+ String "009" "c"]})).
  reflexivity.
Defined.

(** ** Construction *)

(** [Focus(...)]: without the target file it raises the file-not-found
    error and touches nothing; with it, and a backup directory that
    [os.makedirs] accepts, it loads the stripped lines, records their digest
    and the backup path of that name, leaves a file at that path, and
    changes no file that was there, the target included. *)
Theorem init_postcondition (backup_dir : string) (quiet : bool)
    (σ : gmap path string) :
  match σ !! TARGET_FILE_PATH with
  | None =>
      __init__ backup_dir quiet σ
      = (Raise (FileNotFoundError "/etc" "hosts"), σ)
  | Some content =>
      usable_backup_dir σ backup_dir = true →
      ∃ self σ1,
        __init__ backup_dir quiet σ = (Ok self, σ1)
        ∧ hosts_contents self = (PyStr.strip <$> PyStr.readlines content)
        ∧ current_backup_hash self
          = SHA256.hexdigest (PyStr.join "" (hosts_contents self))
        ∧ current_backup_path self
          = os_path_join backup_dir (current_backup_hash self)
        ∧ is_Some (σ1 !! current_backup_path self)
        ∧ (∀ p c, σ !! p = Some c → σ1 !! p = Some c)
        ∧ (∀ p, p ≠ current_backup_path self → σ1 !! p = σ !! p)
  end.
Proof.
  rewrite __init___run. destruct (σ !! TARGET_FILE_PATH) as [content|]; [|done].
  intros _. rewrite _backup_run. eexists _, _. split; [done|].
  unfold current_backup_hash, current_backup_path.
  set (self := snapshot_of _).
  split; [done|]. split; [done|]. split; [done|].
  destruct (σ !! _current_backup_path self) as [c0|] eqn:Hp.
  - split; [by rewrite Hp|]. by split.
  - split; [by rewrite lookup_insert_eq|]. split.
    + intros p c Hc. rewrite lookup_insert_ne; [done|]. congruence.
    + intros p Hne. by rewrite lookup_insert_ne.
Qed.

Lemma init_postcondition_witness :
  let σ : gmap path string :=
    {[TARGET_FILE_PATH := " a " +:+ LF +:+ "b"]} in
  ∃ self σ1,
    __init__ "/var/backups/focus" true σ = (Ok self, σ1)
    ∧ hosts_contents self = ["a"; "b"]
    ∧ σ1 !! TARGET_FILE_PATH = Some (" a " +:+ LF +:+ "b").
Proof.
  intros σ.
  pose proof (init_postcondition "/var/backups/focus" true σ) as H.
  change (σ !! TARGET_FILE_PATH) with (Some (" a " +:+ LF +:+ "b")) in H.
  destruct H as (self & σ1 & Hinit & Hlines & _ & _ & _ & Hkeep & _);
    [vm_compute; reflexivity|].
  exists self, σ1. split; [exact Hinit|]. split; [exact Hlines|].
  apply Hkeep. reflexivity.
Defined.

(** ** Sequences of calls *)

Lemma _backup_keeps (self : Focus) (σ : gmap path string) (p : path)
    (c : string) :
  σ !! p = Some c → (_backup self σ).2 !! p = Some c.
Proof.
  intros Hc. rewrite _backup_run. cbn [snd].
  destruct (σ !! _current_backup_path (snapshot_of self)) eqn:Hp; [done|].
  rewrite lookup_insert_ne; [done|]. congruence.
Qed.

Lemma forbid_domains_frame (self : Focus) (domains : list string)
    (σ : gmap path string) (p : path) :
  p ≠ TARGET_FILE_PATH → (forbid_domains self domains σ).2 !! p = σ !! p.
Proof.
  intros Hne. rewrite forbid_domains_run.
  destruct (hosts_contents self); [done|]. cbn [snd].
  by rewrite lookup_insert_ne.
Qed.

Lemma restore_frame (self : Focus) (hash : option string)
    (σ : gmap path string) (p : path) :
  p ≠ TARGET_FILE_PATH → (restore self hash σ).2 !! p = σ !! p.
Proof.
  intros Hne. rewrite restore_run. cbv zeta.
  destruct (List.filter _ _) as [|name [|name' l]]; [done| |done].
  destruct (σ !! (backup_dir self, name)); [|done]. cbn [snd].
  by rewrite lookup_insert_ne.
Qed.

(** Through any sequence of [_backup], [forbid_domains] and [restore] calls
    on an instance, raising or not: a file other than the target file that
    is in the store stays there with its content (no backup is rewritten or
    removed), and the instance keeps its backup directory and the lines it
    loaded at construction (the target file is never loaded again). *)
Theorem calls_keep_backups (calls : list call) (self : Focus)
    (σ : gmap path string) :
  (∀ p c, p ≠ TARGET_FILE_PATH → σ !! p = Some c →
          (run_calls calls (self, σ)).2 !! p = Some c)
  ∧ hosts_contents (run_calls calls (self, σ)).1 = hosts_contents self
  ∧ backup_dir (run_calls calls (self, σ)).1 = backup_dir self.
Proof.
  unfold run_calls. revert self σ.
  induction calls as [|c calls IH]; intros self σ; [done|].
  cbn [fold_left]. destruct c as [|domains|hash]; cbn [run_call].
  - pose proof (_backup_run self σ) as Hrun.
    destruct (_backup self σ) as [[self'|e] σ'] eqn:Hb; [|done].
    injection Hrun as -> Hσ'.
    destruct (IH (snapshot_of self) σ') as (Hfiles & Hlines & Hdir).
    split; [|by split].
    intros p c Hne Hc. apply Hfiles; [done|].
    pose proof (_backup_keeps self σ p c Hc) as Hk. by rewrite Hb in Hk.
  - destruct (IH self (forbid_domains self domains σ).2)
      as (Hfiles & Hlines & Hdir).
    split; [|by split]. intros p c Hne Hc. apply Hfiles; [done|].
    by rewrite forbid_domains_frame.
  - destruct (IH self (restore self hash σ).2) as (Hfiles & Hlines & Hdir).
    split; [|by split]. intros p c Hne Hc. apply Hfiles; [done|].
    by rewrite restore_frame.
Qed.

Lemma calls_keep_backups_witness :
  let self := mkFocus "backups" true ["a"] "" ("", "") in
  let σ : gmap path string :=
    <[("backups", "old") := "kept"]> {[TARGET_FILE_PATH := "a"]} in
  (run_calls [Call_backup; Call_forbid_domains ["x.com"];
              Call_restore (Some "o"); Call_restore (Some "zz");
              Call_forbid_domains []] (self, σ)).2 !! ("backups", "old")
  = Some "kept".
Proof.
  intros self σ.
  apply (proj1 (calls_keep_backups _ self σ)); [discriminate|reflexivity].
Defined.

(** ** The file a block leaves *)

Lemma filter_not_BOS (L : list string) :
  Forall (λ l, PyStr.startswith l FOCUS_BOS = false) L →
  List.filter (λ l, PyStr.startswith l FOCUS_BOS) L = [].
Proof.
  induction 1 as [|l L Hl _ IH]; [done|]. simpl. by rewrite Hl.
Qed.

(** Whatever was loaded, the lines [forbid_domains] writes hold exactly one
    line that starts with the begin marker, the marker itself, and end with
    the end marker; before the section they are lines of the loaded list, in
    its order. *)
Theorem forbid_domains_one_section (self : Focus) (domains : list string)
    (σ : gmap path string) :
  hosts_contents self ≠ [] →
  ∃ kept,
    forbid_domains self domains σ
    = (Ok (), <[TARGET_FILE_PATH
                := PyStr.join LF (kept ++ managed_section domains)]> σ)
    ∧ kept `sublist_of` hosts_contents self
    ∧ List.filter (λ l, PyStr.startswith l FOCUS_BOS)
                  (kept ++ managed_section domains) = [FOCUS_BOS]
    ∧ last (kept ++ managed_section domains) = Some FOCUS_EOS
    ∧ (length (kept ++ managed_section domains)
       ≤ length (hosts_contents self) + length domains + 2)%nat.
Proof.
  intros Hne. exists (unmanaged (hosts_contents self)).
  split; [by apply forbid_domains_ok|].
  split; [apply unmanaged_from_sublist|].
  split; [|split].
  - rewrite List.filter_app, filter_not_BOS by apply unmanaged_from_no_BOS.
    unfold managed_section. cbn [app List.filter].
    change (PyStr.startswith FOCUS_BOS FOCUS_BOS) with true. cbv iota.
    f_equal. rewrite List.filter_app. cbn [List.filter].
    change (PyStr.startswith FOCUS_EOS FOCUS_BOS) with false. cbv iota.
    rewrite app_nil_r. apply filter_not_BOS.
    apply Forall_fmap, Forall_true. by intros d.
  - unfold managed_section.
    by rewrite (app_comm_cons _ _ FOCUS_BOS), app_assoc, last_snoc.
  - pose proof (sublist_length _ _
                  (unmanaged_from_sublist false (hosts_contents self))).
    unfold managed_section, unmanaged in *.
    rewrite length_app. cbn [length]. rewrite length_app, length_fmap.
    cbn [length]. lia.
Qed.

Lemma forbid_domains_one_section_witness :
  let self := mkFocus "backups" true
                ["# Added by Focus"; "# Added by Focus"; "x";
                 "# End of Focus section"; "y"] "" ("", "") in
  (forbid_domains self ["x.com"] ∅).1 = Ok ().
Proof.
  intros self.
  destruct (forbid_domains_one_section self ["x.com"] ∅) as (kept & -> & _);
    [discriminate|reflexivity].
Defined.

(** A begin marker that no end marker follows takes everything after it:
    the lines from the marker to the end of the file are all dropped. *)
Theorem forbid_domains_unterminated_section (self : Focus)
    (domains : list string) (σ : gmap path string)
    (pre rest : list string) (b : string) :
  hosts_contents self = pre ++ b :: rest →
  Forall (λ l, PyStr.startswith l FOCUS_BOS = false) pre →
  PyStr.startswith b FOCUS_BOS = true →
  Forall (λ l, PyStr.startswith l FOCUS_EOS = false) rest →
  forbid_domains self domains σ
  = (Ok (), <[TARGET_FILE_PATH
              := PyStr.join LF (pre ++ managed_section domains)]> σ).
Proof.
  intros HL Hpre Hb Hrest.
  rewrite forbid_domains_ok by (rewrite HL; by destruct pre).
  rewrite HL. unfold unmanaged. rewrite unmanaged_from_keep by done.
  cbn [unmanaged_from]. rewrite Hb.
  rewrite <- (app_nil_r rest), unmanaged_from_skip by done.
  cbn [unmanaged_from]. by rewrite app_nil_r.
Qed.

Lemma forbid_domains_unterminated_section_witness :
  let self := mkFocus "backups" true
                ["127.0.0.1 localhost"; "# Added by Focus";
                 "127.0.0.1 old.example"; "10.0.0.1 intranet"] "" ("", "") in
  forbid_domains self [] ∅
  = (Ok (), <[TARGET_FILE_PATH
              := PyStr.join LF ["127.0.0.1 localhost"; "# Added by Focus";
                                "# End of Focus section"]]> ∅).
Proof.
  intros self.
  apply (forbid_domains_unterminated_section self [] ∅
           ["127.0.0.1 localhost"]
           ["127.0.0.1 old.example"; "10.0.0.1 intranet"]
           "# Added by Focus");
    first [reflexivity | repeat constructor].
Defined.

(** ** Restoring, again *)

Lemma startswith_length_eq (s p : string) :
  PyStr.startswith s p = true → (String.length s ≤ String.length p)%nat →
  s = p.
Proof.
  unfold PyStr.startswith. revert s.
  induction p as [|a p IH]; intros [|b s]; cbn [String.prefix String.length];
    try done; try lia.
  destruct (ascii_dec a b) as [->|]; [|done].
  intros Hp Hlen. f_equal. apply IH; [done|lia].
Qed.

(** What construction leaves, when the target file is there. *)
Lemma init_cases (backup_dir : string) (quiet : bool) (σ : gmap path string)
    (content : string) :
  σ !! TARGET_FILE_PATH = Some content →
  let self := snapshot_of (mkFocus backup_dir quiet
                             (PyStr.strip <$> PyStr.readlines content)
                             "" (os_path_join "" "")) in
  ∃ σ1,
    __init__ backup_dir quiet σ = (Ok self, σ1)
    ∧ (σ1 !! _current_backup_path self
       = Some (default (PyStr.join LF (hosts_contents self))
                       (σ !! _current_backup_path self)))
    ∧ (∀ p, p ≠ _current_backup_path self → σ1 !! p = σ !! p)
    ∧ (∀ p c, σ !! p = Some c → σ1 !! p = Some c).
Proof.
  intros Htarget self. rewrite __init___run, Htarget, _backup_run.
  fold self. eexists. split; [reflexivity|].
  destruct (σ !! _current_backup_path self) as [c0|] eqn:Hp.
  - by rewrite Hp.
  - rewrite lookup_insert_eq. split; [done|]. split.
    + intros p Hne. by rewrite lookup_insert_ne.
    + intros p c Hc. rewrite lookup_insert_ne; [done|]. congruence.
Qed.

(** In a backup directory that [os.makedirs] accepts and whose entries
    have names of at most 64 characters, as the backups of this tool have,
    the hash recorded at construction names exactly one backup: [restore()]
    raises nothing, whether the block was applied before or
    [forbid_domains] raised. *)
Theorem restore_after_init_succeeds (backup_dir : string) (quiet : bool)
    (domains : list string) (σ : gmap path string) :
  usable_backup_dir σ backup_dir = true →
  is_Some (σ !! TARGET_FILE_PATH) →
  (∀ name, name ∈ listdir σ backup_dir → (String.length name ≤ 64)%nat) →
  ∃ self σ1,
    __init__ backup_dir quiet σ = (Ok self, σ1)
    ∧ (restore self None (forbid_domains self domains σ1).2).1 = Ok ().
Proof.
  intros _ [content Htarget] Hshort.
  destruct (init_cases backup_dir quiet σ content Htarget)
    as (σ1 & Hinit & Hthere & Hframe & _).
  set (self := snapshot_of _) in *.
  set (h := SHA256.hexdigest (PyStr.join "" (hosts_contents self))).
  change (_current_backup_path self) with (backup_dir, h) in *.
  exists self, σ1. split; [done|].
  set (σ2 := (forbid_domains self domains σ1).2).
  assert (PyStr.startswith "hosts" h = false) as Hhosts
    by (apply not_startswith_hexdigest; cbn; lia).
  assert ((backup_dir, h) ≠ TARGET_FILE_PATH) as Hne.
  { intros [= _ Heq]. rewrite <- Heq, startswith_refl in Hhosts. done. }
  rewrite (restore_unique self None σ2 h
             (default (PyStr.join LF (hosts_contents self))
                      (σ !! (backup_dir, h)))).
  - done.
  - unfold σ2. rewrite forbid_domains_frame by done. apply Hthere.
  - apply startswith_refl.
  - intros m [c Hm]%elem_of_listdir Hs.
    change (PyStr.startswith m h = true) in Hs.
    destruct (decide ((backup_dir, m) = TARGET_FILE_PATH)) as [[= _ ->]|Hm_ne].
    { congruence. }
    unfold σ2 in Hm. rewrite forbid_domains_frame in Hm by done.
    destruct (decide ((backup_dir, m) = (backup_dir, h))) as [[= ->]|Hhm];
      [done|].
    rewrite Hframe in Hm by done.
    apply startswith_length_eq; [done|].
    unfold h. rewrite hexdigest_length.
    apply Hshort, elem_of_listdir. eauto.
Qed.

Lemma restore_after_init_succeeds_witness :
  let σ : gmap path string :=
    <[("/var/backups", "notes.txt") := "x"]> {[TARGET_FILE_PATH := ""]} in
  ∃ self σ1,
    __init__ "/var/backups" true σ = (Ok self, σ1)
    ∧ (restore self None (forbid_domains self ["x.com"] σ1).2).1 = Ok ().
Proof.
  intros σ. apply restore_after_init_succeeds.
  - vm_compute. reflexivity.
  - exists "". reflexivity.
  - intros name Hname.
    assert (listdir σ "/var/backups" = ["notes.txt"]) as Hl
      by (vm_compute; reflexivity).
    rewrite Hl in Hname.
    rewrite (proj1 (list_elem_of_singleton name _) Hname). cbn. lia.
Defined.

Lemma filter_singleton_inv {A} (P : A → bool) (l : list A) (x : A) :
  List.filter P l = [x] →
  x ∈ l ∧ P x = true ∧ ∀ y, y ∈ l → P y = true → y = x.
Proof.
  intros Hf.
  assert (∀ y, In y l ∧ P y = true ↔ y = x) as Hin.
  { intros y. rewrite <- filter_In, Hf. cbn.
    split; [by intros [<-|[]]|intros ->; by left]. }
  split; [apply list_elem_of_In, Hin; done|].
  split; [by apply Hin|].
  intros y Hy HP. apply Hin. split; [by apply list_elem_of_In|done].
Qed.

(** With the backups kept in a directory of files, named by its plain
    absolute path, other than the directory of the target file, a restore
    that went through can be repeated: the same backup is found and the
    store stays as the first restore left it. *)
Theorem restore_idempotent (self : Focus) (hash : option string)
    (σ σ1 : gmap path string) :
  usable_backup_dir σ (backup_dir self) = true →
  backup_dir self ≠ "/etc" →
  restore self hash σ = (Ok (), σ1) →
  restore self hash σ1 = (Ok (), σ1).
Proof.
  intros _ Hdir. rewrite restore_run. cbv zeta.
  destruct (List.filter _ _) as [|name [|name' l]] eqn:Hf; [done| |done].
  destruct (σ !! (backup_dir self, name)) as [content|] eqn:Hc; [|done].
  intros [= <-].
  apply filter_singleton_inv in Hf as (Hin & Hname & Huniq).
  rewrite (restore_unique self hash _ name content).
  - by rewrite insert_insert_eq.
  - rewrite lookup_insert_ne; [done|]. intros [= Heq _]. by destruct Hdir.
  - done.
  - intros m [[= Heq _]|Hm]%elem_of_listdir_insert Hs; [by destruct Hdir|].
    by apply Huniq.
Qed.

Lemma restore_idempotent_witness :
  let self := mkFocus "/var/backups" true ["now"] "" ("", "") in
  let σ : gmap path string :=
    <[("/var/backups", "abc1") := "old" +:+ LF +:+ LF]>
      {[TARGET_FILE_PATH := "now"]} in
  restore self (Some "abc") (restore self (Some "abc") σ).2
  = (Ok (), (restore self (Some "abc") σ).2).
Proof.
  intros self σ.
  apply (restore_idempotent self (Some "abc") σ);
    [vm_compute; reflexivity|discriminate|].
  rewrite (restore_unique self (Some "abc") σ "abc1" ("old" +:+ LF +:+ LF));
    [reflexivity..|].
  intros m Hm _.
  assert (listdir σ "/var/backups" = ["abc1"]) as Hl
    by (vm_compute; reflexivity).
  change (m ∈ listdir σ "/var/backups") in Hm. rewrite Hl in Hm.
  exact (proj1 (list_elem_of_singleton m _) Hm).
Defined.

(** ** Durations *)

Lemma int_go_nonneg (acc : Z) (s : string) :
  0 ≤ acc → 0 ≤ PyStr.int_go acc s.
Proof.
  revert acc. induction s as [|c s IH]; intros acc Hacc; [done|].
  cbn [PyStr.int_go]. apply IH.
  assert (0 ≤ PyStr.digit_val c)
    by (destruct c as [[] [] [] [] [] [] [] []]; cbn; lia).
  lia.
Qed.

Lemma parse_time_Ok_nonneg (time_str : string) (sec : Z) :
  parse_time time_str = Ok sec → 0 ≤ sec.
Proof.
  destruct (string_snoc_cases time_str) as [->|(n & c & ->)]; [done|].
  destruct (PyStr.isdigit n) eqn:Hn.
  - rewrite parse_time_snoc by done.
    pose proof (int_go_nonneg 0 n ltac:(lia)) as Hint.
    fold (PyStr.decimal n) in Hint. unfold PyStr.int.
    destruct (Nat.ltb _ _);
      destruct c as [[] [] [] [] [] [] [] []]; try done; cbn [unit_seconds];
      intros [= <-]; lia.
  - by rewrite parse_time_not_digits.
Qed.

Lemma parse_times_Ok (tokens : list string) (secs : list Z) :
  parse_times tokens = Ok secs →
  Forall2 (λ token sec, parse_time token = Ok sec) tokens secs.
Proof.
  revert secs. induction tokens as [|token tokens IH]; intros secs; cbn.
  - intros [= <-]. constructor.
  - destruct (parse_time token) as [sec|] eqn:Ht; [|done].
    destruct (parse_times tokens) as [secs'|]; [|done].
    intros [= <-]. constructor; [done|by apply IH].
Qed.

(** Durations are never negative: [parse_time] returns no negative number
    of seconds, and the tokens after [-t], converted in order, add up to a
    total that is not negative either, one number per token. *)
Theorem durations_nonneg (tokens : list string) (secs : list Z) :
  parse_times tokens = Ok secs →
  length secs = length tokens
  ∧ Forall (λ sec, 0 ≤ sec) secs
  ∧ 0 ≤ sum_ints secs.
Proof.
  intros H%parse_times_Ok.
  induction H as [|token sec tokens secs Ht _ (Hlen & Hall & Hsum)];
    [by repeat constructor|].
  apply parse_time_Ok_nonneg in Ht. cbn. repeat split.
  - by rewrite Hlen.
  - by constructor.
  - unfold sum_ints in Hsum. lia.
Qed.

Lemma durations_nonneg_witness : 0 ≤ sum_ints [3600; 1800; 0].
Proof. apply (durations_nonneg ["1h"; "30m"; "000s"]). reflexivity. Defined.

(** ** The name of a backup *)

Lemma hex_digit_is_lower_hex (x : Z) :
  is_lower_hex (SHA256.hex_digit (Z.land x 0xf)) = true.
Proof.
  assert (0 ≤ Z.land x 0xf < 16) as Hd.
  { change 0xf with (Z.ones 4). rewrite Z.land_ones by lia.
    apply Z.mod_pos_bound. lia. }
  unfold SHA256.hex_digit.
  assert (Z.to_nat (Z.land x 0xf) < 16)%nat as Hn by lia.
  revert Hn. generalize (Z.to_nat (Z.land x 0xf)). intros k Hk.
  do 16 (destruct k as [|k]; [reflexivity|]). lia.
Qed.

Lemma hex_go_is_lower_hex (n : nat) (x : Z) (rest : string) :
  string_forall is_lower_hex rest = true →
  string_forall is_lower_hex (SHA256.hex_go n x rest) = true.
Proof.
  intros Hrest. induction n as [|n IH]; [done|].
  cbn [SHA256.hex_go string_forall].
  by rewrite hex_digit_is_lower_hex, IH.
Qed.

Lemma hexdigest_is_lower_hex (s : string) :
  string_forall is_lower_hex (SHA256.hexdigest s) = true.
Proof.
  unfold SHA256.hexdigest.
  induction (SHA256.digest_words _) as [|w ws IH]; [done|].
  cbn [foldr]. by apply hex_go_is_lower_hex.
Qed.

(** On a backup directory that [os.makedirs] accepts, [_backup] returns,
    and the name it records for the backup is a string of 64 characters
    among 0-9 and a-f, whatever the loaded lines: the backup path is that
    name directly under the backup directory. *)
Theorem backup_name_is_hex (self : Focus) (σ : gmap path string) :
  usable_backup_dir σ (backup_dir self) = true →
  ∃ self' σ',
    _backup self σ = (Ok self', σ')
    ∧ String.length (current_backup_hash self') = 64%nat
    ∧ string_forall is_lower_hex (current_backup_hash self') = true
    ∧ current_backup_path self'
      = (backup_dir self, current_backup_hash self')
    ∧ hosts_contents self' = hosts_contents self.
Proof.
  intros _. rewrite _backup_run. eexists _, _. split; [reflexivity|].
  unfold current_backup_hash, current_backup_path, snapshot_of.
  cbn [_current_hash _current_backup_path hosts_contents].
  split; [apply hexdigest_length|]. split; [apply hexdigest_is_lower_hex|].
  by split.
Qed.

Lemma backup_name_is_hex_witness :
  let self := mkFocus "/var/backups" true ["a"; "b"] "" ("", "") in
  ∃ self' σ',
    _backup self {[TARGET_FILE_PATH := "a" +:+ LF +:+ "b"]} = (Ok self', σ')
    ∧ String.length (current_backup_hash self') = 64%nat.
Proof.
  intros self.
  destruct (backup_name_is_hex self {[TARGET_FILE_PATH := "a" +:+ LF +:+ "b"]})
    as (self' & σ' & Hb & Hlen & _); [vm_compute; reflexivity|].
  exists self', σ'. split; [exact Hb|exact Hlen].
Defined.

(** ** The command line *)

Lemma parse_times_sum_nonneg (tokens : list string) (secs : list Z) :
  parse_times tokens = Ok secs → 0 ≤ sum_ints secs.
Proof.
  intros H%parse_times_Ok.
  induction H as [|token sec tokens secs Ht _ IH]; [done|].
  apply parse_time_Ok_nonneg in Ht. unfold sum_ints in *. cbn. lia.
Qed.

Lemma parse_args_Some (cl : CommandLine) (args : Namespace) :
  parse_args cl = Some args →
  args_domains args = cl_domains cl
  ∧ args_backup_dir args = cl_backup_dir cl
  ∧ args_never_ending args = cl_never_ending cl
  ∧ args_restore args = cl_restore cl
  ∧ args_quiet args = cl_quiet cl
  ∧ match args_time args with
    | None => cl_time cl = None
    | Some secs => cl_never_ending cl = false ∧ 0 ≤ sum_ints secs
                   ∧ is_Some (cl_time cl)
    end.
Proof.
  unfold parse_args. destruct (cl_time cl) as [[|token tokens]|]; [done| |].
  - destruct (cl_never_ending cl); [done|].
    destruct (parse_times (token :: tokens)) as [secs|] eqn:Hp; [|done].
    intros [= <-]. cbn. repeat split; eauto.
    by apply (parse_times_sum_nonneg (token :: tokens)).
  - intros [= <-]. by cbn.
Qed.

Lemma hold_parsed (cl : CommandLine) (args : Namespace) :
  parse_args cl = Some args →
  hold (args_quiet args) (args_time args)
  = match args_time args with
    | None => Uncaught_TypeError
    | Some secs =>
        if cl_quiet cl then
          if SLEEP_MAX <? sum_ints secs then Uncaught_OverflowError
          else if SLEEP_SAFE <? sum_ints secs then Sleep_by_clock
          else Returned
        else
          if FLOAT_OVERFLOW <=? sum_ints secs then Uncaught_OverflowError
          else Returned
    end.
Proof.
  intros (_ & _ & _ & _ & -> & Htime)%parse_args_Some. unfold hold.
  destruct (args_time args) as [secs|]; [|done].
  destruct Htime as (_ & Hsum & _).
  by assert ((sum_ints secs <? 0) = false) as -> by lia.
Qed.

(** [main] never ends on the [ValueError] of a negative sleep: the
    durations it adds up come from [parse_time]. *)
Theorem main_never_ValueError (cl : CommandLine) (σ : gmap path string) :
  (main cl σ).1 ≠ Uncaught_ValueError.
Proof.
  unfold main. destruct (parse_args cl) as [args|] eqn:Hargs; [|done].
  pose proof (hold_parsed cl args Hargs) as Hhold.
  unfold main_body. destruct (args_restore args) as [hash|].
  { destruct (bind _ _ σ) as [[[]|e] σ']; done. }
  destruct (args_never_ending args).
  { destruct (bind _ _ σ) as [[[]|e] σ']; done. }
  unfold with_Focus, __enter__, ret.
  destruct (__init__ _ _ σ) as [[self|e] σ1]; [|done].
  destruct (forbid_domains self (args_domains args) σ1) as [[[]|e] σ2].
  - destruct (__exit__ self σ2) as [[[]|e] σ3]; [|done].
    cbn [fst]. rewrite Hhold. destruct (args_time args) as [secs|]; [|done].
    by destruct (cl_quiet cl), (SLEEP_MAX <? sum_ints secs),
         (SLEEP_SAFE <? sum_ints secs), (FLOAT_OVERFLOW <=? sum_ints secs).
  - by destruct (__exit__ self σ2) as [[[]|e'] σ3].
Qed.









Lemma forbid_domains_reread_witness :
  let self := mkFocus "backups" true ["127.0.0.1 localhost"] "" ("", "") in
  ((do_ forbid_domains self ["x.com"]; _read TARGET_FILE_PATH) ∅).1
  = Ok ["127.0.0.1 localhost"; "# Added by Focus"; "127.0.0.1 x.com";
        "# End of Focus section"].
Proof.
  intros self. rewrite forbid_domains_reread; [reflexivity|discriminate|..];
    repeat constructor.
Defined.
